(** * Vendor scraper: phone normalisation, record extraction, deduplication

    A shallow embedding of [bangalore_vendor_scraper.py]:
    - [validate_phone]   (the phone normaliser),
    - [extract_record]   (the record extractor),
    - [deduplicate] with its inner [make_key] (the deduplicator),
    - the master-table merge of [main] and the [pd.DataFrame(all_records)]
      construction of [collect_all_vendors].

    Python [str] values are modelled as Rocq [string]s whose characters are
    the code points U+0000..U+00FF; [lower], [strip], [\d] follow Python's
    behaviour on that range.  The [phonenumbers] package is an interface
    ([PhoneNumbers]); pandas objects are modelled by the operations the
    script applies to them. *)

From Stdlib Require Import NArith ZArith Ascii.
From stdpp Require Import base option list gmap strings.

(** ** Python string primitives *)

Module PyStr.

Local Open Scope N_scope.

Definition code (c : ascii) : N := N_of_ascii c.

(** [\d] of the [re] module on [str] patterns: the decimal digits.  On the
    modelled range these are exactly 0-9. *)
Definition is_digit (c : ascii) : bool :=
  (48 <=? code c) && (code c <=? 57).

(** [str.isspace] for one character: TAB..CR, FS..US, SPACE, NEL, NBSP. *)
Definition isspace (c : ascii) : bool :=
  let n := code c in
  ((9 <=? n) && (n <=? 13)) || ((28 <=? n) && (n <=? 32))
  || (n =? 133) || (n =? 160).

(** [str.lower] for one character: A-Z and the upper-case letters
    U+00C0..U+00DE (without the multiplication sign U+00D7) move up by 32. *)
Definition lower_char (c : ascii) : ascii :=
  let n := code c in
  if ((65 <=? n) && (n <=? 90))
     || ((192 <=? n) && (n <=? 222) && negb (n =? 215))
  then ascii_of_N (n + 32) else c.

Fixpoint lower (s : string) : string :=
  match s with
  | EmptyString => EmptyString
  | String c s' => String (lower_char c) (lower s')
  end.

(** [s.lstrip()] *)
Fixpoint lstrip (s : string) : string :=
  match s with
  | EmptyString => EmptyString
  | String c s' => if isspace c then lstrip s' else s
  end.

(** [s.rstrip()] *)
Fixpoint rstrip (s : string) : string :=
  match s with
  | EmptyString => EmptyString
  | String c s' =>
      match rstrip s' with
      | EmptyString =>
          if isspace c then EmptyString else String c EmptyString
      | r => String c r
      end
  end.

(** [s.strip()] *)
Definition strip (s : string) : string := rstrip (lstrip s).

(** [s.lstrip(chars)] for a one-character [chars]. *)
Fixpoint lstrip_char (ch : ascii) (s : string) : string :=
  match s with
  | EmptyString => EmptyString
  | String c s' => if Ascii.eqb c ch then lstrip_char ch s' else s
  end.

(** [s.startswith(p)] *)
Fixpoint startswith (p s : string) : bool :=
  match p, s with
  | EmptyString, _ => true
  | String a p', String b s' => Ascii.eqb a b && startswith p' s'
  | String _ _, EmptyString => false
  end.

(** [sub in s] *)
Fixpoint contains (sub s : string) : bool :=
  startswith sub s ||
  match s with
  | EmptyString => false
  | String _ s' => contains sub s'
  end.

(** [s.replace(old, new)]: the non-overlapping occurrences of [old], found
    left to right, are each replaced by [new].  [skip] counts the characters
    of an occurrence that are still to be passed over. *)
Fixpoint replace_from (old new : string) (skip : nat) (s : string) : string :=
  match s with
  | EmptyString => EmptyString
  | String c s' =>
      match skip with
      | S k => replace_from old new k s'
      | O =>
          if startswith old s
          then new +:+ replace_from old new (Nat.pred (String.length old)) s'
          else String c (replace_from old new O s')
      end
  end.

(** With an empty [old], Python inserts [new] before every character and at
    the end. *)
Fixpoint intersperse (new s : string) : string :=
  match s with
  | EmptyString => new
  | String c s' => new +:+ String c (intersperse new s')
  end.

Definition replace (old new s : string) : string :=
  match old with
  | EmptyString => intersperse new s
  | String _ _ => replace_from old new O s
  end.

(** [re.sub] of a one-character class [cls] by the empty text: every character
    matching the class is deleted. *)
Fixpoint re_sub_delete (cls : ascii -> bool) (s : string) : string :=
  match s with
  | EmptyString => EmptyString
  | String c s' =>
      if cls c then re_sub_delete cls s' else String c (re_sub_delete cls s')
  end.

End PyStr.

(** ** The [phonenumbers] package, as far as the script uses it *)

Inductive PhoneNumberType :=
  | FIXED_LINE | MOBILE | FIXED_LINE_OR_MOBILE | TOLL_FREE | PREMIUM_RATE
  | SHARED_COST | VOIP | PERSONAL_NUMBER | PAGER | UAN | VOICEMAIL | UNKNOWN.

Inductive PhoneNumberFormat := E164 | INTERNATIONAL | NATIONAL | RFC3966.

(** [parse number region] is [None] when the package raises
    [NumberParseException]. *)
Class PhoneNumbers := {
  PhoneNumber : Type;
  parse : string -> string -> option PhoneNumber;
  is_valid_number : PhoneNumber -> bool;
  number_type : PhoneNumber -> PhoneNumberType;
  format_number : PhoneNumber -> PhoneNumberFormat -> string
}.

(** ** Phone number validation *)

Section PhoneValidation.
Context `{PhoneNumbers}.

(** [t in valid_types] *)
Definition valid_types (t : PhoneNumberType) : bool :=
  match t with
  | MOBILE | FIXED_LINE | FIXED_LINE_OR_MOBILE => true
  | _ => false
  end.

(** [re.sub] of the class [[^\d+]] by the empty text: the class matches
    whatever is neither a digit nor the plus sign. *)
Definition not_digit_or_plus (c : ascii) : bool :=
  negb (PyStr.is_digit c || Ascii.eqb c "+").

Definition cleaned (raw : string) : string :=
  PyStr.re_sub_delete not_digit_or_plus raw.

(** [[cleaned, f"+91{cleaned.lstrip('0')}"]] *)
Definition candidates (cleaned : string) : list string :=
  [cleaned; "+91" +:+ PyStr.lstrip_char "0" cleaned].

(** The body of the loop for one candidate: [Some] is the [return], [None]
    is falling through to the next iteration (also after the [except]). *)
Definition try_candidate (candidate : string) : option string :=
  match parse candidate "IN" with
  | None => None
  | Some parsed =>
      if is_valid_number parsed then
        if valid_types (number_type parsed)
        then Some (format_number parsed E164)
        else None
      else None
  end.

(** The [for] loop.  [calls] records, in order, the arguments with which
    [phonenumbers.parse] has been called so far. *)
Fixpoint validate_loop (cs : list string) (calls : list string)
  : option string * list string :=
  match cs with
  | [] => (None, calls)
  | candidate :: rest =>
      match try_candidate candidate with
      | Some e164 => (Some e164, calls ++ [candidate])
      | None => validate_loop rest (calls ++ [candidate])
      end
  end.

(** [validate_phone] together with the parser calls it made.  [not raw]
    holds for [None] and for the empty string. *)
Definition validate_phone_calls (raw : option string)
  : option string * list string :=
  match raw with
  | None => (None, [])
  | Some EmptyString => (None, [])
  | Some raw => validate_loop (candidates (cleaned raw)) []
  end.

Definition validate_phone (raw : option string) : option string :=
  (validate_phone_calls raw).1.

(** A candidate is accepted when it parses, the parsed number passes
    [is_valid_number], and its line type is one of the three allowed. *)
Definition accepted (candidate : string) (p : PhoneNumber) : Prop :=
  parse candidate "IN" = Some p /\ is_valid_number p = true
  /\ (number_type p = MOBILE \/ number_type p = FIXED_LINE
      \/ number_type p = FIXED_LINE_OR_MOBILE).

(** The same with validity for a region in place of [is_valid_number]:
    [valid_for_region p region] stands for the package's
    [is_valid_number_for_region], which [validate_phone] does not call. *)
Definition accepted_in_region (valid_for_region : PhoneNumber -> string -> bool)
  (candidate : string) (p : PhoneNumber) : Prop :=
  parse candidate "IN" = Some p /\ valid_for_region p "IN" = true
  /\ (number_type p = MOBILE \/ number_type p = FIXED_LINE
      \/ number_type p = FIXED_LINE_OR_MOBILE).

(** The cleaning step as the specification words it: digits are kept, and a
    plus sign is kept only when it leads the result.  [leading] holds while
    nothing has been kept yet. *)
Fixpoint spec_cleaned_from (leading : bool) (raw : string) : string :=
  match raw with
  | EmptyString => EmptyString
  | String c raw' =>
      if PyStr.is_digit c then String c (spec_cleaned_from false raw')
      else if Ascii.eqb c "+" && leading
           then String c (spec_cleaned_from false raw')
           else spec_cleaned_from leading raw'
  end.

Definition spec_cleaned (raw : string) : string := spec_cleaned_from true raw.

(** The normaliser as the specification words it: as [validate_phone], on
    the candidates of [spec_cleaned]. *)
Definition spec_validate_phone (raw : option string) : option string :=
  match raw with
  | None => None
  | Some EmptyString => None
  | Some raw => (validate_loop (candidates (spec_cleaned raw)) []).1
  end.

End PhoneValidation.

(** ** Python values, errors *)

(** The values held by a listing field or a table cell.  [NaN] is the
    missing value of pandas; [Float m e] is the number [m * 10^e]. *)
Inductive pyval :=
  | NaN
  | Str (s : string)
  | Int (z : Z)
  | Float (m e : Z).

Global Instance pyval_eq_dec : EqDecision pyval.
Proof. solve_decision. Defined.

Inductive exn :=
  | KeyError (key : string)
  | AttributeError.

Inductive result (A : Type) :=
  | Ok (a : A)
  | Raise (e : exn).
Arguments Ok {A} a.
Arguments Raise {A} e.

Definition bind {A B} (m : result A) (f : A -> result B) : result B :=
  match m with
  | Ok a => f a
  | Raise e => Raise e
  end.

Notation "x <- m ;; k" := (bind m (fun x => k))
  (at level 100, m at next level, right associativity).

(** ** Record extraction *)

(** One raw listing ([place]), with the fields the extractor reads.  A field
    is [None] when the key is absent. *)
Record Links := { links_website : option string }.

Record Place := {
  permanently_closed : option bool;
  status : option string;
  phone : option string;
  title : option string;
  address : option string;
  rating : option pyval;
  reviews : option Z;
  website : option string;
  links : option Links;
  link : option string
}.

(** The dictionary returned by [extract_record], one field per key. *)
Record VendorRecord := {
  Category : string;
  Business_Name : string;
  Phone_Number : string;
  Phone_Valid : string;
  Address : string;
  Rating : pyval;
  Total_Reviews : Z;
  Website : string;
  Google_Maps_Link : string;
  Date_Collected : string
}.

(** Truth value of an optional string: [None] and the empty string are false. *)
Definition truthy (v : option string) : bool :=
  match v with
  | None | Some EmptyString => false
  | Some _ => true
  end.

(** [a or b] on an optional string [a]. *)
Definition py_or (a : option string) (b : string) : string :=
  match a with
  | Some s => if truthy a then s else b
  | None => b
  end.

Definition VENDOR_CATEGORIES : list string :=
  [ "Event Caterers Bangalore"; "Tent House Bangalore";
    "Sound System Vendors Bangalore"; "Wedding Decorators Bangalore";
    "Event Photographers Bangalore"; "Florists Bangalore";
    "Wedding Venues Bangalore"; "DJ Services Bangalore";
    "Event Planners Bangalore"; "Lighting Equipment Rental Bangalore" ].

Section Extraction.
Context `{PhoneNumbers}.
(** The module-level [TODAY], fixed when the script starts. *)
Variable TODAY : string.

(** The condition of the first [if] of [extract_record]. *)
Definition is_closed (place : Place) : bool :=
  default false (permanently_closed place)
  || PyStr.contains "permanently closed"
       (PyStr.lower (default EmptyString (status place))).

Definition extract_record (place : Place) (category : string)
  : option VendorRecord :=
  if is_closed place then None else
  let raw_phone := phone place in
  let validated_phone := validate_phone raw_phone in
  let website :=
    py_or (website place)
          (match links place with
           | None => "N/A"
           | Some l => default "N/A" (links_website l)
           end) in
  Some {|
    Category := PyStr.strip (PyStr.replace " Bangalore" EmptyString category);
    Business_Name := default "N/A" (title place);
    Phone_Number := py_or validated_phone "Not Available";
    Phone_Valid := if truthy validated_phone then "Yes" else "No";
    Address := default "N/A" (address place);
    Rating := default (Str "N/A") (rating place);
    Total_Reviews := default 0%Z (reviews place);
    Website := if truthy (Some website) then website else "N/A";
    Google_Maps_Link := default "N/A" (link place);
    Date_Collected := TODAY
  |}.

(** The category as the specification words it: a region qualifier at the
    end is removed, then the result is trimmed. *)
Fixpoint remove_suffix (suffix s : string) : string :=
  match s with
  | EmptyString => EmptyString
  | String c s' =>
      if String.eqb s suffix then EmptyString
      else String c (remove_suffix suffix s')
  end.

Definition spec_category (category : string) : string :=
  PyStr.strip (remove_suffix " Bangalore" category).

(** A phone field is canonical when the normaliser produces it. *)
Definition canonical (s : string) : Prop :=
  exists raw, validate_phone raw = Some s.

End Extraction.

(** ** Tables *)

(** A [pd.DataFrame]: the column labels and the rows in index order.  A row
    maps a column label to its cell; a label without a cell reads [NaN]. *)
Record DataFrame := {
  columns : list string;
  rows : list (gmap string pyval)
}.

(** [df.empty]: some axis has length zero. *)
Definition empty (df : DataFrame) : bool :=
  (length (columns df) =? 0)%nat || (length (rows df) =? 0)%nat.

(** [len(df)] *)
Definition len (df : DataFrame) : nat := length (rows df).

(** [df[col]]: the column as a series, [KeyError] for an unknown label. *)
Definition getitem (df : DataFrame) (col : string) : result (list pyval) :=
  if bool_decide (col ∈ columns df)
  then Ok ((fun r => default NaN (r !! col)) <$> rows df)
  else Raise (KeyError col).

(** The [.str] accessor of a column.  It raises [AttributeError] on a
    column that is not a column of text.  A column with a text in it, or
    without any row, is a column of text; a column that has rows and no text
    is taken as the numeric column that [read_excel] and the table
    constructor make of cells that are all numbers or missing. *)
Definition is_text (v : pyval) : bool :=
  match v with Str _ => true | _ => false end.

Definition holds_text (s : list pyval) : bool :=
  match s with
  | [] => true
  | _ :: _ => existsb is_text s
  end.

Definition str_accessor (s : list pyval) : result (list pyval) :=
  if holds_text s then Ok s else Raise AttributeError.

(** The [.str] methods on a column of text: an element that is not a string
    becomes missing, and a missing element stays missing. *)
Definition str_lower (s : list pyval) : list (option string) :=
  (fun v => match v with Str x => Some (PyStr.lower x) | _ => None end) <$> s.

Definition str_strip (s : list (option string)) : list (option string) :=
  (fun k : option string => PyStr.strip <$> k) <$> s.

(** [series + "text"] and [series + series] on text series: missing
    operands give a missing result. *)
Definition add_scalar (s : list (option string)) (t : string)
  : list (option string) :=
  (fun k : option string => (fun x => x +:+ t) <$> k) <$> s.

Definition add_series (s t : list (option string)) : list (option string) :=
  zip_with (fun a b =>
              match a, b with
              | Some x, Some y => Some (x +:+ y)
              | _, _ => None
              end) s t.

(** [series.isin(values)]; missing values match each other. *)
Definition isin (s : list (option string)) (values : gset (option string))
  : list bool :=
  (fun k => bool_decide (k ∈ values)) <$> s.

(** [~mask] *)
Definition invert (mask : list bool) : list bool := negb <$> mask.

(** [mask.sum()] *)
Definition mask_sum (mask : list bool) : nat :=
  foldr (fun b n => if b : bool then S n else n) O mask.

(** [df[mask]]: the rows at which the mask holds, in order. *)
Fixpoint mask_rows {A} (l : list A) (mask : list bool) : list A :=
  match l, mask with
  | x :: l', b :: mask' =>
      if b then x :: mask_rows l' mask' else mask_rows l' mask'
  | _, _ => []
  end.

(** [df[mask].reset_index(drop=True)]: rows are kept by position, so the
    renumbering of the index leaves the model unchanged. *)
Definition select (df : DataFrame) (mask : list bool) : DataFrame :=
  {| columns := columns df; rows := mask_rows (rows df) mask |}.

(** ** Deduplication *)

(** The inner function [make_key]. *)
Definition make_key (df : DataFrame) : result (list (option string)) :=
  names <- getitem df "Business Name" ;;
  names <- str_accessor names ;;
  let left := add_scalar (str_strip (str_lower names)) "||" in
  addresses <- getitem df "Address" ;;
  addresses <- str_accessor addresses ;;
  Ok (add_series left (str_strip (str_lower addresses))).

Definition deduplicate (new_df existing_df : DataFrame)
  : result (DataFrame * nat * nat) :=
  if empty existing_df then Ok (new_df, len new_df, O) else
  existing <- make_key existing_df ;;
  let existing_keys : gset (option string) := list_to_set existing in
  new_keys <- make_key new_df ;;
  let is_new := invert (isin new_keys existing_keys) in
  let new_only := select new_df is_new in
  let duplicate_count := mask_sum (invert is_new) in
  Ok (new_only, len new_only, duplicate_count).

(** [pd.concat([a, b], ignore_index=True)]: the rows of [a] then those of
    [b], under the union of the column labels. *)
Definition concat (a b : DataFrame) : DataFrame :=
  {| columns := columns a ++ filter (fun c => c ∉ columns a) (columns b);
     rows := rows a ++ rows b |}.

(** Step 4 of [main]: the table written back as the new master. *)
Definition combined_df (existing_df new_only_df : DataFrame) : DataFrame :=
  if negb (empty existing_df) && negb (empty new_only_df)
  then concat existing_df new_only_df
  else if negb (empty existing_df) then existing_df
  else new_only_df.

(** [pd.DataFrame(all_records)] at the end of [collect_all_vendors]: one row
    per record; without records the table has no columns. *)
Definition record_columns : list string :=
  [ "Category"; "Business Name"; "Phone Number (E.164)"; "Phone Valid";
    "Address"; "Rating"; "Total Reviews"; "Website"; "Google Maps Link";
    "Date Collected" ].

Definition row_of_record (r : VendorRecord) : gmap string pyval :=
  list_to_map
    [ ("Category", Str (Category r)); ("Business Name", Str (Business_Name r));
      ("Phone Number (E.164)", Str (Phone_Number r));
      ("Phone Valid", Str (Phone_Valid r)); ("Address", Str (Address r));
      ("Rating", Rating r); ("Total Reviews", Int (Total_Reviews r));
      ("Website", Str (Website r));
      ("Google Maps Link", Str (Google_Maps_Link r));
      ("Date Collected", Str (Date_Collected r)) ].

Definition pd_DataFrame (all_records : list VendorRecord) : DataFrame :=
  {| columns := match all_records with [] => [] | _ :: _ => record_columns end;
     rows := row_of_record <$> all_records |}.

(** *** Row-level reading of the identity key *)

(** Lower-case-and-trim of one cell. *)
Definition normalized (v : pyval) : option string :=
  match v with
  | Str s => Some (PyStr.strip (PyStr.lower s))
  | _ => None
  end.

Definition cell (r : gmap string pyval) (col : string) : pyval :=
  default NaN (r !! col).

(** The Identity Key of a record: normalised name, separator, normalised
    address; missing when either part is. *)
Definition identity_key (r : gmap string pyval) : option string :=
  match normalized (cell r "Business Name"), normalized (cell r "Address") with
  | Some n, Some a => Some ((n +:+ "||") +:+ a)
  | _, _ => None
  end.

Definition historical_keys (df : DataFrame) : gset (option string) :=
  list_to_set (identity_key <$> rows df).

Definition has_key_columns (df : DataFrame) : Prop :=
  "Business Name" ∈ columns df /\ "Address" ∈ columns df.

(** The column [col] is present and is a column of text. *)
Definition text_column (df : DataFrame) (col : string) : Prop :=
  col ∈ columns df
  /\ holds_text ((fun r => default NaN (r !! col)) <$> rows df) = true.

Definition text_key_columns (df : DataFrame) : Prop :=
  text_column df "Business Name" /\ text_column df "Address".

(** Every row has a text as name and as address. *)
Definition all_text (df : DataFrame) : Prop :=
  has_key_columns df
  /\ forall r, r ∈ rows df ->
       exists name addr,
         cell r "Business Name" = Str name /\ cell r "Address" = Str addr.

(** A small table for the examples. *)
Definition vendor (name addr : string) : gmap string pyval :=
  {[ "Business Name" := Str name; "Address" := Str addr ]}.

Definition table (rs : list (gmap string pyval)) : DataFrame :=
  {| columns := ["Business Name"; "Address"]; rows := rs |}.


(** ** A table-driven instance of the package *)

(** Stands for [phonenumbers] on the numbers used in the examples: the
    answers for region IN on a handful of texts, every other text being
    unparseable.  A number is its country calling code and its national
    significant number. *)
Module Fixture.

Record number := { country_code : N; national_number : string }.

Definition IN (nsn : string) : number :=
  {| country_code := 91; national_number := nsn |}.

Definition answers : gmap string number :=
  list_to_map
    [ ("9876543210", IN "9876543210"); ("09876543210", IN "9876543210");
      ("+919876543210", IN "9876543210"); ("919876543210", IN "9876543210");
      ("+918001234567", IN "8001234567");
      ("0008001234567", IN "0008001234567");
      ("18001234567", IN "18001234567");
      ("+9118001234567", IN "18001234567");
      ("12345", IN "12345"); ("+9112345", IN "12345");
      ("+14155552671",
       {| country_code := 1; national_number := "4155552671" |}) ].

Definition parse (text region : string) : option number :=
  if String.eqb region "IN" then answers !! text else None.

Definition toll_free (nsn : string) : bool :=
  (PyStr.startswith "1800" nsn && (String.length nsn =? 11)%nat)
  || (PyStr.startswith "000800" nsn && (String.length nsn =? 13)%nat).

Definition leading_digit (nsn : string) : N :=
  match nsn with
  | EmptyString => 0
  | String c _ => PyStr.code c - 48
  end.

Definition number_type (n : number) : PhoneNumberType :=
  let nsn := national_number n in
  if (country_code n =? 1)%N then FIXED_LINE_OR_MOBILE
  else if toll_free nsn then TOLL_FREE
  else if (String.length nsn =? 10)%nat then
    if (6 <=? leading_digit nsn)%N then MOBILE
    else if (2 <=? leading_digit nsn)%N then FIXED_LINE
    else UNKNOWN
  else UNKNOWN.

Definition is_valid_number (n : number) : bool :=
  match number_type n with
  | UNKNOWN => false
  | _ => true
  end.

Definition is_valid_number_for_region (n : number) (region : string) : bool :=
  is_valid_number n && String.eqb region "IN" && (country_code n =? 91)%N.

Definition calling_code (n : number) : string :=
  if (country_code n =? 1)%N then "1" else "91".

Definition format_number (n : number) (f : PhoneNumberFormat) : string :=
  "+" +:+ calling_code n +:+ national_number n.

Definition lib : PhoneNumbers :=
  Build_PhoneNumbers number parse is_valid_number number_type format_number.

End Fixture.

(** ** The listing source and the collection pipeline *)

(** The rest of the script: [search_category], [collect_all_vendors],
    [load_existing_master], the guard of [export_to_excel], and [main].  The
    search provider and the workbook writer are interfaces; log messages are
    left out. *)

(** The search provider as [search_category] uses it: [fetch category start]
    is the [local_results] of the answer for the query [category] at page
    offset [start] (the empty list when the answer has no such entry), and
    [None] when the request raises. *)
Class ListingSource := {
  fetch : string -> Z -> option (list Place)
}.

(** What a run does to the outside: the requests sent to the provider and
    the pauses of [time.sleep(DELAY_BETWEEN_REQUESTS)], in order. *)
Inductive event :=
  | Request (category : string) (start : Z)
  | Sleep.

Global Instance event_eq_dec : EqDecision event.
Proof. solve_decision. Defined.

(** The report sink.  [exportable df filepath] tells whether
    [export_to_excel] of the table [df], which is not empty, to [filepath]
    runs to its end.  When it does not, [left_on_disk df filepath] tells
    whether a workbook is at [filepath] all the same: the [ExcelWriter]
    block saves the workbook before [load_workbook], the formatting and
    [wb.save], each of which can still raise; an exception while the
    summary is computed comes before any write. *)
Class ReportSink := {
  exportable : DataFrame -> string -> bool;
  left_on_disk : DataFrame -> string -> bool
}.

Section Collection.
Context `{PhoneNumbers} `{ListingSource} `{ReportSink}.
Variable TODAY : string.

(** The [for start in ...] loop of [search_category]: [all_results] is the
    accumulator, [events] what has happened so far.  Both [break]s end the
    loop with what has been accumulated. *)
Fixpoint search_loop (category : string) (starts : list Z)
    (all_results : list Place) (events : list event)
  : list Place * list event :=
  match starts with
  | [] => (all_results, events)
  | start :: rest =>
      match fetch category start with
      | None => (all_results, events ++ [Request category start])
      | Some [] => (all_results, events ++ [Request category start])
      | Some local_results =>
          search_loop category rest (all_results ++ local_results)
                      (events ++ [Request category start; Sleep])
      end
  end.

Definition search_category (category : string) : list Place * list event :=
  search_loop category [0; 20; 40]%Z [] [].

(** The inner loop of [collect_all_vendors] over the listings of one
    category. *)
Fixpoint extract_loop (places : list Place) (category : string)
    (all_records : list VendorRecord) : list VendorRecord :=
  match places with
  | [] => all_records
  | place :: rest =>
      match extract_record TODAY place category with
      | Some record => extract_loop rest category (all_records ++ [record])
      | None => extract_loop rest category all_records
      end
  end.

(** The outer loop over the categories. *)
Fixpoint collect_loop (categories : list string)
    (all_records : list VendorRecord) (events : list event)
  : list VendorRecord * list event :=
  match categories with
  | [] => (all_records, events)
  | category :: rest =>
      let (places, happened) := search_category category in
      collect_loop rest (extract_loop places category all_records)
                   (events ++ happened)
  end.

Definition collect_all_vendors : DataFrame * list event :=
  let (all_records, events) := collect_loop VENDOR_CATEGORIES [] [] in
  (pd_DataFrame all_records, events).

(** ** The run *)

(** [load_existing_master]: the master file is absent ([None]), present but
    unreadable ([Some None]), or read as a table. *)
Definition load_existing_master (master_file : option (option DataFrame))
  : DataFrame :=
  match master_file with
  | Some (Some df) => df
  | _ => pd_DataFrame []
  end.

(** A workbook written by [export_to_excel]: [formatted] tells whether the
    formatting pass was saved as well. *)
Record Export := {
  filepath : string;
  exported : DataFrame;
  formatted : bool
}.

Inductive main_exn :=
  | ValueError
  | Uncaught (e : exn)
  | ExportRaised.

(** [export_to_excel] writes nothing for an empty table; otherwise its
    outcome is the workbooks it leaves on the disk and the exception it
    raised, if any. *)
Definition export_to_excel (df : DataFrame) (filepath : string)
  : list Export * option main_exn :=
  if empty df then ([], None)
  else if exportable df filepath
       then ([ {| filepath := filepath; exported := df;
                  formatted := true |} ], None)
       else if left_on_disk df filepath
            then ([ {| filepath := filepath; exported := df;
                       formatted := false |} ], Some ExportRaised)
            else ([], Some ExportRaised).

Definition DATED_FILE : string := "Bangalore_Vendors_" +:+ TODAY +:+ ".xlsx".

Definition MASTER_FILE : string := "Bangalore_Vendors_Master_List.xlsx".

(** The outcome of [main]: the events, the workbooks written, in order, and
    the exception that ended the run, if any. *)
Definition main (SERPAPI_KEY : string)
    (master_file : option (option DataFrame))
  : list event * list Export * option main_exn :=
  if String.eqb SERPAPI_KEY "YOUR_SERPAPI_KEY_HERE"
  then ([], [], Some ValueError) else
  let (new_df, events) := collect_all_vendors in
  if empty new_df then (events, [], None) else
  let existing_df := load_existing_master master_file in
  match deduplicate new_df existing_df with
  | Raise e => (events, [], Some (Uncaught e))
  | Ok (new_only_df, new_count, dup_count) =>
      let (dated, raised) :=
        if negb (empty new_only_df)
        then export_to_excel new_only_df DATED_FILE
        else ([], None) in
      match raised with
      | Some e => (events, dated, Some e)
      | None =>
          let (master, raised) :=
            export_to_excel (combined_df existing_df new_only_df)
                            MASTER_FILE in
          (events, dated ++ master, raised)
      end
  end.

End Collection.

(** A table-driven listing source: two pages for one category, a failing
    request for another, nothing for the rest. *)
Module SourceFixture.

Definition second_listing : Place :=
  {| permanently_closed := None; status := None;
     phone := Some "1800 123 4567"; title := Some "Royal Caterers";
     address := Some "Brigade Road"; rating := None; reviews := None;
     website := Some "https://royal.example"; links := None; link := None |}.

Definition shut_listing : Place :=
  {| permanently_closed := None; status := Some "Permanently Closed";
     phone := None; title := Some "Old Florist"; address := None;
     rating := None; reviews := None; website := None; links := None;
     link := None |}.

Definition pages (category : string) (start : Z) : option (list Place) :=
  if String.eqb category "Tent House Bangalore" then
    if (start =? 0)%Z then
      Some [ {| permanently_closed := None; status := Some "Open";
                phone := Some "098765 43210"; title := Some "Acme Tents";
                address := Some "MG Road"; rating := Some (Float 45 (-1));
                reviews := Some 12%Z; website := None; links := None;
                link := None |};
             shut_listing ]
    else if (start =? 20)%Z then Some [second_listing]
    else Some []
  else if String.eqb category "Florists Bangalore" then None
  else Some [].

Definition source : ListingSource := Build_ListingSource pages.

(** The same provider, except that the request for the third page of the
    first category raises. *)
Definition flaky_pages (category : string) (start : Z)
  : option (list Place) :=
  if String.eqb category "Tent House Bangalore" && (start =? 40)%Z
  then None else pages category start.

Definition flaky : ListingSource := Build_ListingSource flaky_pages.

(** A provider without any listing. *)
Definition silent : ListingSource :=
  Build_ListingSource (fun _ _ => Some []).

(** A sink on which every export completes, and one on which the master
    cannot be written. *)
Definition sink : ReportSink :=
  Build_ReportSink (fun _ _ => true) (fun _ _ => false).

Definition master_locked : ReportSink :=
  Build_ReportSink
    (fun _ path => negb (String.eqb path "Bangalore_Vendors_Master_List.xlsx"))
    (fun _ _ => false).

(** A sink on which the workbooks are written but their formatting cannot
    be saved. *)
Definition unformatted : ReportSink :=
  Build_ReportSink (fun _ _ => false) (fun _ _ => true).

End SourceFixture.

(** ** Auxiliary notions for the properties of the pipeline *)

Section PagingNotions.
Context `{ListingSource}.

(** A page that stops the pagination: the request raised, or the page has
    no listing. *)
Definition stops (category : string) (start : Z) : Prop :=
  fetch category start = None \/ fetch category start = Some [].

(** A page with at least one listing. *)
Definition yields (category : string) (start : Z) : Prop :=
  exists p ps, fetch category start = Some (p :: ps).

End PagingNotions.

(** The events of a category whose pages at the offsets [ok] had listings
    and whose remaining offsets are [rest]: a request and a pause for each
    page of [ok], then the request that stopped the pagination, if any. *)
Definition paging_events (category : string) (ok rest : list Z)
  : list event :=
  (ok ≫= fun s => [Request category s; Sleep])
  ++ (Request category <$> take 1 rest).

(** Requests never follow one another without a pause. *)
Inductive paced : list event -> Prop :=
  | paced_nil : paced []
  | paced_last category start : paced [Request category start]
  | paced_pause category start evs :
      paced evs -> paced (Request category start :: Sleep :: evs).

(** The category labels once the qualifier is removed. *)
Definition short_categories : list string :=
  [ "Event Caterers"; "Tent House"; "Sound System Vendors";
    "Wedding Decorators"; "Event Photographers"; "Florists";
    "Wedding Venues"; "DJ Services"; "Event Planners";
    "Lighting Equipment Rental" ].

(** What a run keeps of the master it has read, the collected rows that are
    new against it, the table of those rows, and the table written back. *)
Definition run_kept (existing : DataFrame) : list (gmap string pyval) :=
  if empty existing then [] else rows existing.

Definition run_fresh (existing new_df : DataFrame)
  : list (gmap string pyval) :=
  filter (fun r => identity_key r
                   ∉ (list_to_set (identity_key <$> run_kept existing)
                      : gset (option string)))
         (rows new_df).

Definition run_new_only (existing new_df : DataFrame) : DataFrame :=
  {| columns := columns new_df; rows := run_fresh existing new_df |}.

Definition run_master (existing new_df : DataFrame) : DataFrame :=
  combined_df existing (run_new_only existing new_df).

(** ** Sample inputs *)

(** An open listing with the phone number of the specification's scenario. *)
Definition open_listing : Place :=
  {| permanently_closed := None; status := Some "Open";
     phone := Some "098765 43210"; title := Some "Acme Tents";
     address := Some "MG Road"; rating := Some (Float 45 (-1));
     reviews := Some 12%Z; website := None; links := None; link := None |}.

Definition closed_listing : Place :=
  {| permanently_closed := Some true; status := None;
     phone := Some "098765 43210"; title := Some "Acme Tents";
     address := Some "MG Road"; rating := None; reviews := None;
     website := None; links := None; link := None |}.

Definition run_date : string := "26-Feb-2026".

Definition open_record : VendorRecord :=
  {| Category := "Tent House"; Business_Name := "Acme Tents";
     Phone_Number := "+919876543210"; Phone_Valid := "Yes";
     Address := "MG Road"; Rating := Float 45 (-1); Total_Reviews := 12;
     Website := "N/A"; Google_Maps_Link := "N/A";
     Date_Collected := run_date |}.

(** The tables of the specification's scenarios. *)
Definition hist_table : DataFrame := table [vendor "X" "Y"].

Definition new_table : DataFrame := table [vendor "X" "Y"; vendor "Z" "W"].

Definition acme_new : DataFrame := table [vendor "Acme Tents " "MG Road"].

Definition acme_hist : DataFrame := table [vendor "acme tents" "mg road"].

(** A table that has rows but neither of the key columns. *)
Definition bad_master : DataFrame :=
  {| columns := ["Category"];
     rows := [ {[ "Category" := Str "Tent House" ]} ] |}.

(** A master read back with an address column that holds no text. *)
Definition blank_addresses : DataFrame :=
  {| columns := ["Business Name"; "Address"];
     rows := [ {[ "Business Name" := Str "X" ]} ] |}.

(** * Properties *)

(** ** Examples *)

Example lower_ex : PyStr.lower "Acme Tents " = "acme tents ".
Proof. reflexivity. Qed.

Example strip_ex : PyStr.strip "  MG Road  " = "MG Road".
Proof. reflexivity. Qed.

Example replace_ex :
  PyStr.replace " Bangalore" EmptyString "Tent House Bangalore" = "Tent House".
Proof. reflexivity. Qed.

Example dedup_scenario :
  deduplicate (table [vendor "X" "Y"; vendor "Z" "W"]) (table [vendor "X" "Y"])
  = Ok (table [vendor "Z" "W"], 1%nat, 1%nat).
Proof. vm_compute. reflexivity. Qed.

Example fixture_mobile :
  @validate_phone Fixture.lib (Some "098765 43210") = Some "+919876543210".
Proof. vm_compute. reflexivity. Qed.

(** [is_valid_number] judges a number for the region of its own calling
    code: a number of another country passes. *)
Example fixture_other_country :
  @validate_phone Fixture.lib (Some "+1 415 555 2671") = Some "+14155552671".
Proof. vm_compute. reflexivity. Qed.

Example fixture_toll_free :
  @validate_phone Fixture.lib (Some "1800 123 4567") = None.
Proof. vm_compute. reflexivity. Qed.

(** ** The phone normaliser *)

Section PhoneProperties.
Context `{PhoneNumbers}.

Lemma valid_types_spec t :
  valid_types t = true <->
  t = MOBILE \/ t = FIXED_LINE \/ t = FIXED_LINE_OR_MOBILE.
Proof.
  destruct t; simpl; split; intros Ht; try discriminate; auto;
    destruct Ht as [Ht | [Ht | Ht]]; discriminate.
Qed.

Lemma try_candidate_accepted c p :
  accepted c p -> try_candidate c = Some (format_number p E164).
Proof.
  intros (Hparse & Hvalid & Htype). unfold try_candidate.
  rewrite Hparse, Hvalid.
  apply valid_types_spec in Htype. now rewrite Htype.
Qed.

Lemma try_candidate_inv c e164 :
  try_candidate c = Some e164 ->
  exists p, accepted c p /\ e164 = format_number p E164.
Proof.
  unfold try_candidate, accepted.
  destruct (parse c "IN") as [p|] eqn:Hparse; [|discriminate].
  destruct (is_valid_number p) eqn:Hvalid; [|discriminate].
  destruct (valid_types (number_type p)) eqn:Htype; [|discriminate].
  intros [= <-]. exists p. rewrite <- valid_types_spec. auto.
Qed.

Lemma try_candidate_rejected c :
  (forall p, ~ accepted c p) -> try_candidate c = None.
Proof.
  intros Hno. destruct (try_candidate c) as [e|] eqn:Htry; [|reflexivity].
  apply try_candidate_inv in Htry as (p & Hacc & _).
  now destruct (Hno p).
Qed.

(** The loop on the two candidates, case by case. *)
Lemma validate_loop_two c1 c2 :
  validate_loop [c1; c2] [] =
    match try_candidate c1 with
    | Some e => (Some e, [c1])
    | None =>
        match try_candidate c2 with
        | Some e => (Some e, [c1; c2])
        | None => (None, [c1; c2])
        end
    end.
Proof.
  simpl. destruct (try_candidate c1); [reflexivity|].
  destruct (try_candidate c2); reflexivity.
Qed.

Lemma validate_phone_calls_nonempty raw :
  raw <> EmptyString ->
  validate_phone_calls (Some raw) =
    validate_loop (candidates (cleaned raw)) [].
Proof. destruct raw; [congruence | reflexivity]. Qed.

(** What the cleaning keeps: the digits and the plus signs, in order. *)
Lemma cleaned_filter raw :
  String.list_ascii_of_string (cleaned raw) =
    filter (fun c => PyStr.is_digit c || Ascii.eqb c "+")
           (String.list_ascii_of_string raw).
Proof.
  unfold cleaned. induction raw as [|c raw IH]; [reflexivity|].
  simpl. unfold not_digit_or_plus at 1.
  rewrite filter_cons.
  destruct (PyStr.is_digit c || Ascii.eqb c "+"); simpl; [f_equal|]; exact IH.
Qed.

(** A text of digits, possibly after a leading plus sign, is left as it
    is by the cleaning. *)
Lemma cleaned_digits d :
  Forall (fun c => PyStr.is_digit c = true)
         (String.list_ascii_of_string d) ->
  cleaned d = d.
Proof.
  unfold cleaned. induction d as [|c d IH]; [reflexivity|].
  simpl. intros Hall. inversion Hall as [|? ? Hc Hd]; subst.
  unfold not_digit_or_plus at 1. rewrite Hc. simpl. f_equal. auto.
Qed.

Lemma cleaned_app a b : cleaned (a +:+ b) = cleaned a +:+ cleaned b.
Proof.
  unfold cleaned. induction a as [|c a IH]; [reflexivity|].
  change (String c a +:+ b) with (String c (a +:+ b)). simpl.
  destruct (not_digit_or_plus c); [exact IH|].
  change (String c (PyStr.re_sub_delete not_digit_or_plus a) +:+
          PyStr.re_sub_delete not_digit_or_plus b)
    with (String c (PyStr.re_sub_delete not_digit_or_plus a +:+
                    PyStr.re_sub_delete not_digit_or_plus b)).
  now f_equal.
Qed.

End PhoneProperties.

Section PhoneClaims.
Context `{PhoneNumbers}.

Lemma lstrip_char_id ch s :
  PyStr.startswith (String ch EmptyString) s = false ->
  PyStr.lstrip_char ch s = s.
Proof.
  destruct s as [|c s]; [reflexivity|]. simpl.
  rewrite Ascii.eqb_sym. destruct (Ascii.eqb c ch); [discriminate|reflexivity].
Qed.

(** Whatever the normaliser returns is the E.164 text of an accepted
    candidate. *)
Lemma validate_phone_inv raw e164 :
  validate_phone raw = Some e164 ->
  exists r c p, raw = Some r /\ c ∈ candidates (cleaned r)
                /\ accepted c p /\ e164 = format_number p E164.
Proof.
  unfold validate_phone.
  destruct raw as [[|a r]|]; [discriminate| |discriminate].
  rewrite validate_phone_calls_nonempty by discriminate.
  unfold candidates. rewrite validate_loop_two.
  set (c1 := cleaned (String a r)).
  set (c2 := "+91" +:+ PyStr.lstrip_char "0" c1).
  destruct (try_candidate c1) as [e|] eqn:H1.
  - intros [= <-]. apply try_candidate_inv in H1 as (p & Hp & ->).
    exists (String a r), c1, p.
    split; [reflexivity|]. split; [apply list_elem_of_here|]. now split.
  - destruct (try_candidate c2) as [e|] eqn:H2; [|discriminate].
    intros [= <-]. apply try_candidate_inv in H2 as (p & Hp & ->).
    exists (String a r), c2, p.
    split; [reflexivity|].
    split; [apply list_elem_of_further, list_elem_of_here|]. now split.
Qed.

(** C3 (as amended).  For a non-empty raw text the cleaned string keeps
    the digits and every plus sign of the raw text, in order.  Let the
    package's validity check and validity for region IN agree on whatever
    the two candidates parse to.  The parser is called on the cleaned
    string; if that candidate parses, is valid for region IN and has an
    allowed line type, its E.164 text is returned after this single call.
    Otherwise the parser is called a second time, on the cleaned string
    with its leading zeros stripped and "+91" put in front; the E.164 text
    of that candidate is returned under the same three conditions, and no
    value otherwise. *)
Theorem validate_phone_first_success
  (valid_for_region : PhoneNumber -> string -> bool) (raw : string) :
  raw <> EmptyString ->
  let c1 := cleaned raw in
  let c2 := "+91" +:+ PyStr.lstrip_char "0" (cleaned raw) in
  (forall c p, c ∈ [c1; c2] -> parse c "IN" = Some p ->
               is_valid_number p = valid_for_region p "IN") ->
  String.list_ascii_of_string c1 =
    filter (fun c => PyStr.is_digit c || Ascii.eqb c "+")
           (String.list_ascii_of_string raw)
  /\ (forall p, accepted_in_region valid_for_region c1 p ->
        validate_phone_calls (Some raw) =
          (Some (format_number p E164), [c1]))
  /\ ((forall p, ~ accepted_in_region valid_for_region c1 p) ->
      forall p, accepted_in_region valid_for_region c2 p ->
        validate_phone_calls (Some raw) =
          (Some (format_number p E164), [c1; c2]))
  /\ ((forall p, ~ accepted_in_region valid_for_region c1 p) ->
      (forall p, ~ accepted_in_region valid_for_region c2 p) ->
        validate_phone_calls (Some raw) = (None, [c1; c2])).
Proof.
  intros Hne c1 c2 Hagree.
  assert (Hin : forall c p, c ∈ [c1; c2] ->
             accepted_in_region valid_for_region c p <-> accepted c p).
  { intros c p Hc. unfold accepted_in_region, accepted.
    split; intros (Hp & Hv & Ht); (split; [exact Hp|]); (split; [|exact Ht]).
    - now rewrite (Hagree c p Hc Hp).
    - now rewrite <- (Hagree c p Hc Hp). }
  assert (Hc1 : c1 ∈ [c1; c2]) by apply list_elem_of_here.
  assert (Hc2 : c2 ∈ [c1; c2])
    by apply list_elem_of_further, list_elem_of_here.
  split; [apply cleaned_filter|].
  rewrite (validate_phone_calls_nonempty raw Hne).
  unfold candidates. fold c2. fold c1. rewrite validate_loop_two.
  assert (Hrej : forall c, c ∈ [c1; c2] ->
             (forall p, ~ accepted_in_region valid_for_region c p) ->
             forall p, ~ accepted c p).
  { intros c Hc Hno p Hp. apply (Hno p). now apply Hin. }
  split; [|split].
  - intros p Hp. apply (Hin _ _ Hc1) in Hp.
    now rewrite (try_candidate_accepted _ _ Hp).
  - intros H1 p Hp. apply (Hin _ _ Hc2) in Hp.
    now rewrite (try_candidate_rejected _ (Hrej _ Hc1 H1)),
                (try_candidate_accepted _ _ Hp).
  - intros H1 H2.
    now rewrite (try_candidate_rejected _ (Hrej _ Hc1 H1)),
                (try_candidate_rejected _ (Hrej _ Hc2 H2)).
Qed.

(** C4.  Let [d] be a ten-digit national number not starting with 0 whose
    international form "+91d" the package parses to a valid mobile number
    [p].  Provided the package reads the bare form and the form with a
    leading 0, when it parses them at all, as [p], and reads the form with
    the bare 91 prefix as [p], the normaliser returns the same E.164 text
    on all four forms. *)
Theorem validate_phone_variants (d : string) (p : PhoneNumber) :
  String.length d = 10%nat ->
  Forall (fun c => PyStr.is_digit c = true) (String.list_ascii_of_string d) ->
  PyStr.startswith "0" d = false ->
  parse ("+91" +:+ d) "IN" = Some p ->
  is_valid_number p = true ->
  number_type p = MOBILE ->
  (forall q, parse d "IN" = Some q -> q = p) ->
  (forall q, parse ("0" +:+ d) "IN" = Some q -> q = p) ->
  parse ("91" +:+ d) "IN" = Some p ->
  validate_phone (Some d) = Some (format_number p E164)
  /\ validate_phone (Some ("0" +:+ d)) = Some (format_number p E164)
  /\ validate_phone (Some ("+91" +:+ d)) = Some (format_number p E164)
  /\ validate_phone (Some ("91" +:+ d)) = Some (format_number p E164).
Proof.
  intros Hlen Hdig H0 Hintl Hvalid Hmobile Hbare Htrunk Hcc.
  assert (Hclean : cleaned d = d) by now apply cleaned_digits.
  assert (Hacc : forall c, parse c "IN" = Some p -> accepted c p)
    by (intros c Hc; repeat split; auto).
  assert (Hfall : forall c,
             (forall q, parse c "IN" = Some q -> q = p) ->
             (validate_loop [c; "+91" +:+ d] []).1
             = Some (format_number p E164)).
  { intros c Hc. rewrite validate_loop_two.
    destruct (try_candidate c) as [e|] eqn:Htry.
    - apply try_candidate_inv in Htry as (q & Hq & ->).
      destruct Hq as (Hq & _). now rewrite (Hc q Hq).
    - now rewrite (try_candidate_accepted _ _ (Hacc _ Hintl)). }
  assert (Hfirst : forall c c',
             parse c "IN" = Some p ->
             (validate_loop [c; c'] []).1 = Some (format_number p E164)).
  { intros c c' Hc. rewrite validate_loop_two.
    now rewrite (try_candidate_accepted _ _ (Hacc _ Hc)). }
  unfold validate_phone. repeat split.
  - rewrite validate_phone_calls_nonempty
      by (intros ->; discriminate Hlen).
    unfold candidates. rewrite Hclean, (lstrip_char_id _ _ H0).
    now apply Hfall.
  - rewrite validate_phone_calls_nonempty by discriminate.
    unfold candidates. rewrite (cleaned_app "0" d), Hclean.
    change (cleaned "0" +:+ d) with (String "0" d).
    change (PyStr.lstrip_char "0" (String "0" d))
      with (PyStr.lstrip_char "0" d).
    rewrite (lstrip_char_id _ _ H0). now apply Hfall.
  - rewrite validate_phone_calls_nonempty by discriminate.
    unfold candidates. rewrite (cleaned_app "+91" d), Hclean.
    change (cleaned "+91") with "+91". now apply Hfirst.
  - rewrite validate_phone_calls_nonempty by discriminate.
    unfold candidates. rewrite (cleaned_app "91" d), Hclean.
    change (cleaned "91") with "91". now apply Hfirst.
Qed.

End PhoneClaims.

(** The scenario of the specification: "098765 43210" is accepted at the
    first call. *)
Lemma validate_phone_first_success_witness :
  "098765 43210" <> EmptyString /\
  @validate_phone_calls Fixture.lib (Some "098765 43210")
  = (Some "+919876543210", ["09876543210"]).
Proof.
  split; [discriminate|].
  destruct (@validate_phone_first_success Fixture.lib
              Fixture.is_valid_number_for_region "098765 43210")
    as (_ & Hfirst & _); [discriminate| |].
  - intros c p Hc Hparse.
    change (cleaned "098765 43210") with "09876543210" in Hc.
    change ("+91" +:+ PyStr.lstrip_char "0" "09876543210")
      with "+919876543210" in Hc.
    apply elem_of_cons in Hc as [-> | Hc].
    + vm_compute in Hparse. injection Hparse as <-. reflexivity.
    + apply elem_of_cons in Hc as [-> | Hc].
      * vm_compute in Hparse. injection Hparse as <-. reflexivity.
      * apply elem_of_nil in Hc. destruct Hc.
  - apply (Hfirst (Fixture.IN "9876543210")).
    split; [reflexivity|]. split; [reflexivity|]. left. reflexivity.
Defined.

(** C3, counterexample.  A plus sign inside the text survives the cleaning,
    where the claim keeps a leading one only; with it no candidate parses,
    while the candidates of the claim's cleaning do. *)
Lemma validate_phone_inner_plus_counterexample :
  cleaned "98765+43210" = "98765+43210"
  /\ spec_cleaned "98765+43210" = "9876543210"
  /\ @validate_phone Fixture.lib (Some "98765+43210") = None
  /\ @spec_validate_phone Fixture.lib (Some "98765+43210")
     = Some "+919876543210"
  /\ ~ (forall raw : string, cleaned raw = spec_cleaned raw).
Proof.
  repeat split; try (vm_compute; reflexivity).
  intros Hclaim. specialize (Hclaim "98765+43210").
  vm_compute in Hclaim. discriminate.
Qed.

Lemma validate_phone_variants_witness :
  @validate_phone Fixture.lib (Some "9876543210") = Some "+919876543210"
  /\ @validate_phone Fixture.lib (Some "09876543210") = Some "+919876543210"
  /\ @validate_phone Fixture.lib (Some "+919876543210") = Some "+919876543210"
  /\ @validate_phone Fixture.lib (Some "919876543210") = Some "+919876543210".
Proof.
  apply (@validate_phone_variants Fixture.lib "9876543210"
           (Fixture.IN "9876543210")).
  - reflexivity.
  - repeat constructor.
  - reflexivity.
  - reflexivity.
  - reflexivity.
  - reflexivity.
  - intros q Hq. vm_compute in Hq. now injection Hq as <-.
  - intros q Hq. vm_compute in Hq. now injection Hq as <-.
  - reflexivity.
Defined.

(** C5.  The toll-free number 000800 123 4567: the first candidate parses
    to a valid number of an excluded line type, and the normaliser still
    returns a value, the E.164 text of the second candidate, which reads
    the same digits, leading zeros stripped, as a mobile number. *)
Theorem validate_phone_toll_free_returned :
  cleaned "000800 123 4567" = "0008001234567"
  /\ (exists p,
        @parse Fixture.lib (cleaned "000800 123 4567") "IN" = Some p
        /\ @is_valid_number Fixture.lib p = true
        /\ @number_type Fixture.lib p = TOLL_FREE
        /\ valid_types (@number_type Fixture.lib p) = false)
  /\ @validate_phone_calls Fixture.lib (Some "000800 123 4567")
     = (Some "+918001234567", ["0008001234567"; "+918001234567"]).
Proof.
  split; [reflexivity|]. split; [|vm_compute; reflexivity].
  exists (Fixture.IN "0008001234567"). repeat split.
Qed.

(** A toll-free number whose "+91" form is not a number is refused. *)
Example validate_phone_toll_free_refused :
  @validate_phone Fixture.lib (Some "1800 123 4567") = None.
Proof. vm_compute. reflexivity. Qed.

(** ** The record extractor *)

Section StringFacts.

Lemma app_cons c (a b : string) : String c a +:+ b = String c (a +:+ b).
Proof. reflexivity. Qed.

Lemma app_nil_r' (a : string) : a +:+ EmptyString = a.
Proof. induction a as [|c a IH]; [reflexivity|]. now rewrite app_cons, IH. Qed.

Lemma startswith_app q b : PyStr.startswith q (q +:+ b) = true.
Proof.
  induction q as [|c q IH]; [reflexivity|].
  rewrite app_cons. simpl. now rewrite Ascii.eqb_refl.
Qed.

Lemma startswith_inv q s :
  PyStr.startswith q s = true -> exists b, s = q +:+ b.
Proof.
  revert s. induction q as [|c q IH]; intros s Hs.
  - now exists s.
  - destruct s as [|c' s]; [discriminate|]. simpl in Hs.
    apply andb_true_iff in Hs as [Hc Hs]. apply Ascii.eqb_eq in Hc as ->.
    destruct (IH s Hs) as [b ->]. now exists b.
Qed.

(** Passing over the rest of an occurrence that reaches the end of the
    text leaves nothing. *)
Lemma replace_from_skip_all old new k s :
  (String.length s <= k)%nat -> PyStr.replace_from old new k s = EmptyString.
Proof.
  revert k. induction s as [|c s IH]; intros k Hk; [reflexivity|].
  simpl in *. destruct k as [|k]; [lia|]. apply IH. lia.
Qed.

(** When the only place at which [q] occurs in [s] is its end, replacing
    [q] by nothing is removing it as a suffix. *)
Lemma replace_only_at_end q s :
  q <> EmptyString ->
  (forall a b, s = a +:+ q +:+ b -> b = EmptyString) ->
  PyStr.replace q EmptyString s = remove_suffix q s.
Proof.
  intros Hq. destruct q as [|q0 q']; [congruence|]. clear Hq.
  unfold PyStr.replace. set (q := String q0 q').
  induction s as [|c s IH]; intros Hend; [reflexivity|].
  cbn [PyStr.replace_from remove_suffix].
  destruct (PyStr.startswith q (String c s)) eqn:Hstart.
  - apply startswith_inv in Hstart as [b Hb].
    assert (b = EmptyString) as ->
      by (apply (Hend EmptyString b); exact Hb).
    rewrite app_nil_r' in Hb. rewrite Hb, String.eqb_refl.
    unfold q in Hb. injection Hb as -> ->.
    rewrite replace_from_skip_all by (simpl; lia). reflexivity.
  - destruct (String.eqb (String c s) q) eqn:Heq.
    + apply String.eqb_eq in Heq. rewrite Heq in Hstart.
      rewrite <- (app_nil_r' q) in Hstart at 2.
      now rewrite startswith_app in Hstart.
    + f_equal. apply IH. intros a b Hab.
      apply (Hend (String c a) b). now rewrite app_cons, Hab.
Qed.

End StringFacts.

Section ExtractionClaims.
Context `{PhoneNumbers}.
Variable TODAY : string.

Lemma truthy_Some_inv v :
  truthy v = true -> exists s, v = Some s /\ s <> EmptyString.
Proof.
  destruct v as [[|c s]|]; try discriminate.
  intros _. now exists (String c s).
Qed.

(** C8.  The package writes every E.164 text with a leading plus sign.
    Then for every record the extractor produces, the validity flag is
    "Yes" exactly when the phone field is canonical, which is again when
    the normaliser returned the phone field for this listing; when the
    normaliser returns no value the phone field is the placeholder
    "Not Available" and the flag is "No"; and the placeholder is not
    canonical. *)
Theorem extract_record_phone_flag (place : Place) (category : string)
    (r : VendorRecord) :
  (forall p, PyStr.startswith "+" (format_number p E164) = true) ->
  extract_record TODAY place category = Some r ->
  (Phone_Valid r = "Yes" <-> canonical (Phone_Number r))
  /\ (Phone_Valid r = "Yes" <->
      validate_phone (phone place) = Some (Phone_Number r))
  /\ (Phone_Valid r = "Yes" \/ Phone_Valid r = "No")
  /\ (validate_phone (phone place) = None ->
      Phone_Number r = "Not Available" /\ Phone_Valid r = "No")
  /\ ~ canonical "Not Available".
Proof.
  intros Hplus Hrec.
  assert (Hcanon : forall s, canonical s -> PyStr.startswith "+" s = true).
  { intros s [raw Hraw].
    apply validate_phone_inv in Hraw as (_ & _ & p & _ & _ & _ & ->).
    apply Hplus. }
  assert (Hplaceholder : ~ canonical "Not Available").
  { intros Hc. apply Hcanon in Hc. discriminate Hc. }
  unfold extract_record in Hrec.
  destruct (is_closed place); [discriminate|].
  injection Hrec as <-. cbn [Phone_Valid Phone_Number].
  destruct (validate_phone (phone place)) as [[|a v]|] eqn:Hv.
  - assert (Hc : canonical EmptyString) by (now exists (phone place)).
    apply Hcanon in Hc. discriminate Hc.
  - cbn. repeat split; auto; try discriminate.
    intros _. now exists (phone place).
  - cbn. repeat split; auto; try discriminate.
    intros Hc. now destruct Hplaceholder.
Qed.

(** C9 (as amended).  For every listing that is not closed and every
    category, the extractor produces a record whose category field is the
    category with every occurrence of the qualifier " Bangalore" removed,
    then trimmed; when the qualifier occurs nowhere but at the end of the
    category, this is the category with its trailing qualifier removed,
    trimmed. *)
Theorem extract_record_category (place : Place) (category : string) :
  is_closed place = false ->
  exists r,
    extract_record TODAY place category = Some r
    /\ Category r
       = PyStr.strip (PyStr.replace " Bangalore" EmptyString category)
    /\ ((forall a b, category = a +:+ " Bangalore" +:+ b ->
                     b = EmptyString) ->
        Category r = spec_category category).
Proof.
  intros Hopen. unfold extract_record. rewrite Hopen.
  eexists. split; [reflexivity|]. cbn [Category].
  split; [reflexivity|].
  intros Hend. unfold spec_category.
  now rewrite replace_only_at_end.
Qed.

End ExtractionClaims.

Example extract_open_listing :
  @extract_record Fixture.lib run_date open_listing "Tent House Bangalore"
  = Some open_record.
Proof. vm_compute. reflexivity. Qed.

Example extract_closed_listing category :
  @extract_record Fixture.lib run_date closed_listing category = None.
Proof. reflexivity. Qed.

Lemma extract_record_phone_flag_witness :
  (Phone_Valid open_record = "Yes" <->
   @canonical Fixture.lib (Phone_Number open_record))
  /\ (Phone_Valid open_record = "Yes" <->
      @validate_phone Fixture.lib (phone open_listing)
      = Some (Phone_Number open_record))
  /\ (Phone_Valid open_record = "Yes" \/ Phone_Valid open_record = "No")
  /\ (@validate_phone Fixture.lib (phone open_listing) = None ->
      Phone_Number open_record = "Not Available"
      /\ Phone_Valid open_record = "No")
  /\ ~ @canonical Fixture.lib "Not Available".
Proof.
  apply (@extract_record_phone_flag Fixture.lib run_date open_listing
           "Tent House Bangalore" open_record).
  - intros p. reflexivity.
  - vm_compute. reflexivity.
Defined.

Lemma extract_record_category_witness :
  exists r,
    @extract_record Fixture.lib run_date open_listing "Tent House Bangalore"
    = Some r
    /\ Category r
       = PyStr.strip
           (PyStr.replace " Bangalore" EmptyString "Tent House Bangalore")
    /\ ((forall a b, "Tent House Bangalore" = a +:+ " Bangalore" +:+ b ->
                     b = EmptyString) ->
        Category r = spec_category "Tent House Bangalore").
Proof.
  apply (@extract_record_category Fixture.lib run_date open_listing
           "Tent House Bangalore").
  reflexivity.
Defined.

(** C9, counterexample.  A qualifier inside the category is removed as
    well: "Wedding Bangalore Venues" becomes "Wedding Venues", where the
    claim leaves it intact. *)
Lemma extract_record_category_counterexample :
  ~ (forall (L : PhoneNumbers) (today : string) (place : Place)
            (category : string) (r : VendorRecord),
       is_closed place = false ->
       extract_record today place category = Some r ->
       Category r = spec_category category).
Proof.
  intros Hclaim.
  pose proof (Hclaim Fixture.lib run_date open_listing
                "Wedding Bangalore Venues" _ eq_refl eq_refl) as Hcat.
  vm_compute in Hcat. discriminate Hcat.
Qed.

(** On the configured categories the two readings agree. *)
Lemma configured_categories_agree :
  Forall (fun category =>
            PyStr.strip (PyStr.replace " Bangalore" EmptyString category)
            = spec_category category) VENDOR_CATEGORIES.
Proof. repeat constructor. Qed.

(** ** The deduplicator *)

Section DedupFacts.
Implicit Types (df new existing : DataFrame) (r : gmap string pyval).
Implicit Types (keys : gset (option string)).

Lemma getitem_Ok df col :
  col ∈ columns df -> getitem df col = Ok ((fun r => cell r col) <$> rows df).
Proof. intros Hcol. unfold getitem. now rewrite bool_decide_eq_true_2. Qed.

Lemma getitem_KeyError df col :
  col ∉ columns df -> getitem df col = Raise (KeyError col).
Proof. intros Hcol. unfold getitem. now rewrite bool_decide_eq_false_2. Qed.

(** The column-wise key computation yields, row by row, the identity
    key. *)
Lemma key_series (l : list (gmap string pyval)) :
  add_series
    (add_scalar (str_strip (str_lower ((fun r => cell r "Business Name") <$> l)))
                "||")
    (str_strip (str_lower ((fun r => cell r "Address") <$> l)))
  = identity_key <$> l.
Proof.
  induction l as [|r l IH]; [reflexivity|].
  unfold add_series, add_scalar, str_strip, str_lower in *.
  rewrite !fmap_cons. cbn [zip_with]. rewrite IH. f_equal.
  unfold identity_key, normalized.
  destruct (cell r "Business Name"), (cell r "Address"); reflexivity.
Qed.

Lemma text_key_columns_has_key df : text_key_columns df -> has_key_columns df.
Proof. intros [[Hn _] [Ha _]]. now split. Qed.

Lemma str_accessor_Ok (s : list pyval) :
  holds_text s = true -> str_accessor s = Ok s.
Proof. intros Hs. unfold str_accessor. now rewrite Hs. Qed.

Lemma str_accessor_Raise (s : list pyval) :
  holds_text s = false -> str_accessor s = Raise AttributeError.
Proof. intros Hs. unfold str_accessor. now rewrite Hs. Qed.

Lemma make_key_Ok df :
  text_key_columns df -> make_key df = Ok (identity_key <$> rows df).
Proof.
  intros [[Hname Hnt] [Haddr Hat]]. unfold make_key.
  rewrite (getitem_Ok _ _ Hname), (getitem_Ok _ _ Haddr). cbn [bind].
  unfold cell. rewrite (str_accessor_Ok _ Hnt). cbn [bind].
  rewrite (str_accessor_Ok _ Hat). cbn [bind].
  now rewrite <- key_series.
Qed.

Lemma make_key_inv df ks : make_key df = Ok ks -> text_key_columns df.
Proof.
  unfold make_key, text_key_columns, text_column, getitem, str_accessor.
  set (names := (fun r => default NaN (r !! "Business Name")) <$> rows df).
  set (addrs := (fun r => default NaN (r !! "Address")) <$> rows df).
  case_bool_decide as Hn; cbn [bind]; [|discriminate].
  destruct (holds_text names); cbn [bind]; [|discriminate].
  case_bool_decide as Ha; cbn [bind]; [|discriminate].
  destruct (holds_text addrs); cbn [bind]; [|discriminate].
  auto.
Qed.

Lemma make_key_Raise df :
  ~ text_key_columns df -> exists e, make_key df = Raise e.
Proof.
  intros Hno. destruct (make_key df) as [ks|e] eqn:Hk.
  - destruct Hno. now apply make_key_inv in Hk.
  - now exists e.
Qed.

(** Without one of the key columns the error is a [KeyError]. *)
Lemma make_key_KeyError df :
  "Business Name" ∉ columns df ->
  make_key df = Raise (KeyError "Business Name").
Proof.
  intros Hn. unfold make_key. now rewrite (getitem_KeyError _ _ Hn).
Qed.

(** Selecting by the inverted membership mask is filtering on absence. *)
Lemma mask_rows_absent keys (l : list (gmap string pyval)) :
  mask_rows l (invert (isin (identity_key <$> l) keys))
  = filter (fun r => identity_key r ∉ keys) l.
Proof.
  induction l as [|r l IH]; [reflexivity|].
  unfold invert, isin in *. rewrite !fmap_cons. cbn [mask_rows].
  rewrite IH. case_bool_decide; cbn [negb].
  - now rewrite filter_cons_False by tauto.
  - now rewrite filter_cons_True.
Qed.

Lemma mask_sum_present keys (l : list (gmap string pyval)) :
  mask_sum (invert (invert (isin (identity_key <$> l) keys)))
  = length (filter (fun r => identity_key r ∈ keys) l).
Proof.
  induction l as [|r l IH]; [reflexivity|].
  unfold invert, isin in *. rewrite !fmap_cons. cbn [mask_sum foldr].
  fold (mask_sum (negb <$> (negb <$>
          ((fun k => bool_decide (k ∈ keys)) <$> (identity_key <$> l))))).
  rewrite IH. case_bool_decide; cbn [negb].
  - now rewrite filter_cons_True.
  - now rewrite filter_cons_False.
Qed.

Lemma filter_absent_present keys (l : list (gmap string pyval)) :
  (length (filter (fun r => identity_key r ∉ keys) l)
   + length (filter (fun r => identity_key r ∈ keys) l) = length l)%nat.
Proof.
  induction l as [|r l IH]; [reflexivity|].
  destruct (decide (identity_key r ∈ keys)) as [Hin|Hout].
  - rewrite (filter_cons_False (fun r => identity_key r ∉ keys)) by tauto.
    rewrite (filter_cons_True (fun r => identity_key r ∈ keys)) by done.
    simpl. lia.
  - rewrite (filter_cons_True (fun r => identity_key r ∉ keys)) by done.
    rewrite (filter_cons_False (fun r => identity_key r ∈ keys)) by done.
    simpl. lia.
Qed.

(** Copies of a row that passes a filter all pass it. *)
Lemma filter_keeps_copies (P : gmap string pyval -> Prop)
    `{!forall r, Decision (P r)} r (l : list (gmap string pyval)) :
  P r -> filter (fun x => x = r) (filter P l) = filter (fun x => x = r) l.
Proof.
  intros Hr. induction l as [|x l IH]; [reflexivity|].
  destruct (decide (x = r)) as [->|Hne].
  - rewrite (filter_cons_True P _ _ Hr), !filter_cons_True by done.
    now rewrite IH.
  - rewrite (filter_cons_False (fun x => x = r) x l) by done.
    destruct (decide (P x)).
    + rewrite filter_cons_True by done. now rewrite filter_cons_False.
    + now rewrite filter_cons_False.
Qed.

Lemma empty_false df :
  empty df = false <-> columns df <> [] /\ rows df <> [].
Proof.
  unfold empty. destruct (columns df), (rows df); simpl; split; intros Hx;
    try discriminate; try (destruct Hx; congruence); split; discriminate.
Qed.

Lemma has_key_columns_nonempty df : has_key_columns df -> columns df <> [].
Proof. intros [Hn _] Hnil. rewrite Hnil in Hn. now apply elem_of_nil in Hn. Qed.

(** The deduplicator on a non-empty history with the key columns in both
    tables, in closed form. *)
Lemma deduplicate_filter new existing :
  empty existing = false ->
  text_key_columns new -> text_key_columns existing ->
  deduplicate new existing =
    Ok ({| columns := columns new;
           rows := filter (fun r => identity_key r ∉ historical_keys existing)
                          (rows new) |},
        length (filter (fun r => identity_key r ∉ historical_keys existing)
                       (rows new)),
        length (filter (fun r => identity_key r ∈ historical_keys existing)
                       (rows new))).
Proof.
  intros Hne Hnew Hex. unfold deduplicate. rewrite Hne.
  rewrite (make_key_Ok _ Hex), (make_key_Ok _ Hnew). cbn [bind].
  fold (historical_keys existing).
  unfold select, len. cbn [rows columns].
  now rewrite mask_rows_absent, mask_sum_present.
Qed.

Lemma deduplicate_defined new existing :
  text_key_columns new ->
  empty existing = true \/ text_key_columns existing ->
  exists v, deduplicate new existing = Ok v.
Proof.
  intros Hnew Hex. destruct (empty existing) eqn:Hempty.
  - unfold deduplicate. rewrite Hempty. eauto.
  - destruct Hex as [Hex|Hex]; [discriminate|].
    rewrite deduplicate_filter by assumption. eauto.
Qed.

Lemma deduplicate_Ok_inv new existing v :
  empty existing = false -> deduplicate new existing = Ok v ->
  text_key_columns new /\ text_key_columns existing.
Proof.
  intros Hne. unfold deduplicate. rewrite Hne.
  destruct (make_key existing) as [ks|e] eqn:Hex; [|discriminate].
  destruct (make_key new) as [kn|e] eqn:Hnew; [|discriminate].
  intros _. split; eapply make_key_inv; eassumption.
Qed.

Lemma elem_of_historical_keys df k :
  k ∈ historical_keys df <-> exists r, r ∈ rows df /\ identity_key r = k.
Proof.
  unfold historical_keys. rewrite elem_of_list_to_set, list_elem_of_fmap.
  split; intros (r & H1 & H2); exists r; auto.
Qed.

End DedupFacts.


Ltac in_list :=
  repeat first [apply list_elem_of_here | apply list_elem_of_further].

Section TextFacts.
Implicit Types (df new existing : DataFrame) (r : gmap string pyval).

Lemma holds_text_elem (s : list pyval) x :
  x ∈ s -> is_text x = true -> holds_text s = true.
Proof.
  intros Hx Ht. destruct s as [|y s]; [reflexivity|].
  unfold holds_text. apply existsb_exists. exists x. split; [|exact Ht].
  now apply list_elem_of_In.
Qed.

Lemma holds_text_inv (s : list pyval) :
  holds_text s = true -> s = [] \/ exists x, x ∈ s /\ is_text x = true.
Proof.
  destruct s as [|y s]; [now left|]. unfold holds_text. intros He.
  apply existsb_exists in He as (x & Hx & Ht). right. exists x.
  split; [now apply list_elem_of_In|exact Ht].
Qed.

Lemma holds_text_app_l (s t : list pyval) :
  s <> [] -> holds_text s = true -> holds_text (s ++ t) = true.
Proof.
  intros Hne Hs. apply holds_text_inv in Hs as [->|(x & Hx & Ht)];
    [congruence|].
  apply (holds_text_elem _ x); [|exact Ht]. apply elem_of_app. now left.
Qed.

Lemma all_text_text_key_columns df : all_text df -> text_key_columns df.
Proof.
  intros [[Hn Ha] Hrows]. split; (split; [assumption|]).
  - destruct (rows df) as [|r rs] eqn:Hr; [reflexivity|].
    destruct (Hrows r) as (n & a & Hcn & _); [try rewrite Hr; in_list|].
    apply (holds_text_elem _ (Str n)); [|reflexivity].
    rewrite fmap_cons. unfold cell in Hcn. rewrite Hcn. in_list.
  - destruct (rows df) as [|r rs] eqn:Hr; [reflexivity|].
    destruct (Hrows r) as (n & a & _ & Hca); [try rewrite Hr; in_list|].
    apply (holds_text_elem _ (Str a)); [|reflexivity].
    rewrite fmap_cons. unfold cell in Hca. rewrite Hca. in_list.
Qed.

Lemma all_text_filter df (P : gmap string pyval -> Prop)
    `{!forall r, Decision (P r)} :
  all_text df ->
  all_text {| columns := columns df; rows := filter P (rows df) |}.
Proof.
  intros [Hk Hrows]. split; [exact Hk|]. cbn [rows]. intros r Hr.
  apply list_elem_of_filter in Hr as [_ Hr]. now apply Hrows.
Qed.

Lemma text_key_columns_concat existing df :
  empty existing = false -> text_key_columns existing ->
  empty (concat existing df) = false
  /\ text_key_columns (concat existing df).
Proof.
  intros Hne [[Hn Hnt] [Ha Hat]].
  apply empty_false in Hne as [Hc Hr]. split.
  - apply empty_false. cbn [concat columns rows]. split.
    + destruct (columns existing); [congruence|discriminate].
    + destruct (rows existing); [congruence|discriminate].
  - split; (split; [cbn [concat columns]; apply elem_of_app; now left|]);
      cbn [concat rows]; rewrite fmap_app; apply holds_text_app_l; auto;
      destruct (rows existing); [congruence|discriminate|congruence|discriminate].
Qed.

Lemma table_text_key_columns r rs :
  (exists n a, r = vendor n a) -> text_key_columns (table (r :: rs)).
Proof.
  intros (n & a & ->).
  split; (split; [unfold table; cbn [columns]; in_list|reflexivity]).
Qed.

End TextFacts.

Lemma row_text_key_columns (df : DataFrame) (r : gmap string pyval) n a :
  has_key_columns df -> r ∈ rows df ->
  cell r "Business Name" = Str n -> cell r "Address" = Str a ->
  text_key_columns df.
Proof.
  intros [Hn Ha] Hr Hcn Hca. split; (split; [assumption|]).
  - apply (holds_text_elem _ (Str n)); [|reflexivity].
    apply list_elem_of_fmap. exists r. split; [|exact Hr].
    unfold cell in Hcn. now rewrite Hcn.
  - apply (holds_text_elem _ (Str a)); [|reflexivity].
    apply list_elem_of_fmap. exists r. split; [|exact Hr].
    unfold cell in Hca. now rewrite Hca.
Qed.

Lemma identity_key_Str (r : gmap string pyval) n a :
  cell r "Business Name" = Str n -> cell r "Address" = Str a ->
  identity_key r
  = Some ((PyStr.strip (PyStr.lower n) +:+ "||")
          +:+ PyStr.strip (PyStr.lower a)).
Proof. intros Hn Ha. unfold identity_key. now rewrite Hn, Ha. Qed.

Section DedupClaims.
Implicit Types (new existing batch hist : DataFrame).
Implicit Types (r : gmap string pyval).

(** C1 (as amended).  With a non-empty historical batch, and the name and
    address columns present as columns of text in both batches,
    [deduplicate] returns the records of the new batch whose Identity Key is
    absent from the set of historical keys, in their order: a record is
    retained exactly when it is in the new batch with an absent key, every
    copy of such a record is retained, and the two counts are the numbers of
    retained and of removed records. *)
Theorem deduplicate_retains_absent_keys new existing :
  empty existing = false ->
  text_key_columns new -> text_key_columns existing ->
  exists out n d,
    deduplicate new existing = Ok (out, n, d)
    /\ columns out = columns new
    /\ rows out = filter (fun r => identity_key r ∉ historical_keys existing)
                         (rows new)
    /\ (forall r, r ∈ rows out <->
                  r ∈ rows new /\ identity_key r ∉ historical_keys existing)
    /\ (forall r, identity_key r ∉ historical_keys existing ->
                  length (filter (fun x => x = r) (rows out))
                  = length (filter (fun x => x = r) (rows new)))
    /\ n = length (rows out)
    /\ (n + d = length (rows new))%nat.
Proof.
  intros Hne Hnew Hex. eexists _, _, _.
  split; [now apply deduplicate_filter|]. cbn [columns rows].
  split; [reflexivity|]. split; [reflexivity|].
  split; [|split; [|split]].
  - intros r. rewrite list_elem_of_filter. tauto.
  - intros r Hr.
    now rewrite (filter_keeps_copies
                   (fun r => identity_key r ∉ historical_keys existing)).
  - reflexivity.
  - apply filter_absent_present.
Qed.

(** C2 (as amended).  Let [batch] be a table whose rows all have a text as
    name and as address, or a table without rows, on which [deduplicate]
    against [hist] returns the genuinely new table [g].  Then [deduplicate]
    of [g] against the merge of [hist] and [g] returns no record, a
    new-count of zero, and a duplicate count equal to the size of [g]. *)
Theorem deduplicate_idempotent batch hist g n d :
  all_text batch \/ rows batch = [] ->
  deduplicate batch hist = Ok (g, n, d) ->
  exists g',
    deduplicate g (combined_df hist g) = Ok (g', O, length (rows g))
    /\ rows g' = [].
Proof.
  intros Hbatch Hfirst.
  assert (Hall : forall (l : list (gmap string pyval))
                        (keys : gset (option string)),
             (forall r, r ∈ l -> identity_key r ∈ keys) ->
             filter (fun r => identity_key r ∉ keys) l = []
             /\ filter (fun r => identity_key r ∈ keys) l = l).
  { intros l keys. induction l as [|r l IH]; intros Hin; [done|].
    destruct IH as [IH1 IH2].
    { intros x Hx. apply Hin. now apply list_elem_of_further. }
    pose proof (Hin r (list_elem_of_here _ _)) as Hr.
    rewrite (filter_cons_False (fun r => identity_key r ∉ keys)) by tauto.
    rewrite (filter_cons_True (fun r => identity_key r ∈ keys)) by done.
    now rewrite IH1, IH2. }
  assert (Hsecond : forall m,
             empty m = false -> text_key_columns g -> text_key_columns m ->
             (forall r, r ∈ rows g -> r ∈ rows m) ->
             exists g', deduplicate g m = Ok (g', O, length (rows g))
                        /\ rows g' = []).
  { intros m Hm Hg Hmk Hsub.
    rewrite deduplicate_filter by assumption.
    destruct (Hall (rows g) (historical_keys m)) as [H1 H2].
    { intros r Hr. apply elem_of_historical_keys. exists r. auto. }
    rewrite H1, H2. eexists. split; reflexivity. }
  assert (Hnorows : forall df, rows df = [] ->
             deduplicate df df = Ok (df, O, length (rows df))
             /\ rows df = []).
  { intros df Hr. split; [|exact Hr]. unfold deduplicate.
    assert (empty df = true) as ->
      by (unfold empty; rewrite Hr; apply orb_true_r).
    unfold len. now rewrite Hr. }
  destruct (empty hist) eqn:Hhist.
  - unfold deduplicate in Hfirst. rewrite Hhist in Hfirst.
    injection Hfirst as <- <- <-.
    unfold combined_df. rewrite Hhist. cbn [negb andb].
    destruct Hbatch as [Htext|Hr]; [|exists batch; now apply Hnorows].
    assert (Hrows : rows batch = [] \/ rows batch <> [])
      by (destruct (rows batch); [now left|now right]).
    destruct Hrows as [Hrows|Hrows]; [exists batch; now apply Hnorows|].
    apply Hsecond; auto using all_text_text_key_columns.
    apply empty_false. split; [|exact Hrows].
    destruct Htext as [Hk _]. now apply has_key_columns_nonempty.
  - destruct (deduplicate_Ok_inv _ _ _ Hhist Hfirst) as [Hkb Hkh].
    rewrite deduplicate_filter in Hfirst by assumption.
    injection Hfirst as <- <- <-.
    set (g := {| columns := columns batch;
                 rows := filter (fun r => identity_key r
                                          ∉ historical_keys hist)
                                (rows batch) |}).
    assert (Hkg : text_key_columns g).
    { destruct Hbatch as [Htext|Hr].
      - apply all_text_text_key_columns. now apply all_text_filter.
      - destruct Hkb as [[Hn _] [Ha _]].
        split; (split; [assumption|]); unfold g; cbn [rows];
          now rewrite Hr. }
    unfold combined_df. rewrite Hhist. cbn [negb andb].
    destruct (empty g) eqn:Hg.
    + assert (rows g = []) as Hrows.
      { apply text_key_columns_has_key, has_key_columns_nonempty in Hkg.
        unfold empty in Hg. destruct (columns g); [congruence|].
        destruct (rows g); [reflexivity|discriminate]. }
      rewrite deduplicate_filter by assumption.
      rewrite Hrows. eexists. split; reflexivity.
    + cbn [negb].
      destruct (text_key_columns_concat hist g Hhist Hkh) as [Hc Hkc].
      apply Hsecond; auto.
      intros r Hr. cbn [concat rows]. apply elem_of_app. now right.
Qed.

(** C6.  Against an empty historical batch [deduplicate] returns the new
    batch itself, its length, and a duplicate count of zero. *)
Theorem deduplicate_empty_history new existing :
  empty existing = true ->
  deduplicate new existing = Ok (new, length (rows new), O).
Proof. intros Hempty. unfold deduplicate. now rewrite Hempty. Qed.

(** C7.  Let [r1] be a record of the new batch with name [n1] and address
    [a1], and [r2] a record of the historical batch with name [n2] and
    address [a2], both batches having the name and address columns.  The
    Identity Key of each is its lower-cased and trimmed name, the separator,
    and its lower-cased and trimmed address.  When the names are equal after
    lower-casing and trimming, and so are the addresses, the two keys are
    equal and [deduplicate] returns, removes [r1] as a duplicate (the
    duplicate count is at least one), and keeps every record of the new
    batch whose key is not a historical key. *)
Theorem identity_key_case_trim_insensitive new existing r1 r2 n1 a1 n2 a2 :
  has_key_columns new -> has_key_columns existing ->
  r1 ∈ rows new -> r2 ∈ rows existing ->
  cell r1 "Business Name" = Str n1 -> cell r1 "Address" = Str a1 ->
  cell r2 "Business Name" = Str n2 -> cell r2 "Address" = Str a2 ->
  PyStr.strip (PyStr.lower n1) = PyStr.strip (PyStr.lower n2) ->
  PyStr.strip (PyStr.lower a1) = PyStr.strip (PyStr.lower a2) ->
  identity_key r1
  = Some ((PyStr.strip (PyStr.lower n1) +:+ "||")
          +:+ PyStr.strip (PyStr.lower a1))
  /\ identity_key r2
     = Some ((PyStr.strip (PyStr.lower n2) +:+ "||")
             +:+ PyStr.strip (PyStr.lower a2))
  /\ identity_key r1 = identity_key r2
  /\ exists out n d,
       deduplicate new existing = Ok (out, n, d)
       /\ (r1 ∉ rows out)
       /\ (forall r, r ∈ rows new ->
                     identity_key r ∉ historical_keys existing ->
                     r ∈ rows out)
       /\ (forall r, r ∈ rows out -> r ∈ rows new)
       /\ (1 <= d)%nat.
Proof.
  intros Hnew Hex H1 H2 Hn1 Ha1 Hn2 Ha2 Hname Haddr.
  pose proof (identity_key_Str _ _ _ Hn1 Ha1) as Hk1.
  pose proof (identity_key_Str _ _ _ Hn2 Ha2) as Hk2.
  assert (Hkey : identity_key r1 = identity_key r2)
    by (rewrite Hk1, Hk2; now rewrite Hname, Haddr).
  split; [exact Hk1|]. split; [exact Hk2|]. split; [exact Hkey|].
  assert (Hne : empty existing = false).
  { apply empty_false. split; [now apply has_key_columns_nonempty|].
    intros Hnil. rewrite Hnil in H2. now apply elem_of_nil in H2. }
  assert (Hhist : identity_key r1 ∈ historical_keys existing).
  { apply elem_of_historical_keys. exists r2. auto. }
  rewrite deduplicate_filter
    by eauto using row_text_key_columns.
  eexists _, _, _. split; [reflexivity|]. cbn [rows].
  split; [|split; [|split]].
  - rewrite list_elem_of_filter. intros [Habsent _]. now apply Habsent.
  - intros r Hr Habsent. apply list_elem_of_filter. auto.
  - intros r Hr. now apply list_elem_of_filter in Hr.
  - assert (Hin : r1 ∈ filter (fun r => identity_key r
                                        ∈ historical_keys existing)
                               (rows new))
      by (apply list_elem_of_filter; auto).
    destruct (filter _ (rows new)) as [|x l];
      [now apply elem_of_nil in Hin|cbn; lia].
Qed.

(** C10.  Against a non-empty historical batch, [deduplicate] on the table
    of a run without records, which has no columns, raises; the exception
    is a [KeyError] for the name column when the historical batch has its
    name and address columns holding text; and whenever [deduplicate]
    returns, the new batch has the name and address columns. *)
Theorem deduplicate_requires_key_columns existing :
  empty existing = false ->
  (exists e, deduplicate (pd_DataFrame []) existing = Raise e)
  /\ (text_key_columns existing ->
      deduplicate (pd_DataFrame []) existing
      = Raise (KeyError "Business Name"))
  /\ (forall new v, deduplicate new existing = Ok v -> has_key_columns new).
Proof.
  intros Hne.
  assert (Hthird : forall new v,
             deduplicate new existing = Ok v -> has_key_columns new).
  { intros new v Hv. destruct (deduplicate_Ok_inv _ _ _ Hne Hv) as [Hk _].
    now apply text_key_columns_has_key. }
  split; [|split; [|exact Hthird]].
  - destruct (deduplicate (pd_DataFrame []) existing) as [v|e] eqn:Hd.
    + apply Hthird in Hd as [Hn _]. now apply elem_of_nil in Hn.
    + now exists e.
  - intros Hex. unfold deduplicate. rewrite Hne, (make_key_Ok _ Hex).
    reflexivity.
Qed.

End DedupClaims.

Lemma vendor_is_vendor n a : exists n' a', vendor n a = vendor n' a'.
Proof. now exists n, a. Qed.

Lemma table_all_text (rs : list (gmap string pyval)) :
  (forall r, r ∈ rs -> exists n a, r = vendor n a) -> all_text (table rs).
Proof.
  intros Hrs. split; [split; unfold table; cbn [columns]; in_list|].
  intros r Hr. destruct (Hrs r Hr) as (n & a & ->).
  exists n, a. split; reflexivity.
Qed.

Lemma deduplicate_retains_absent_keys_witness :
  exists out n d,
    deduplicate new_table hist_table = Ok (out, n, d)
    /\ rows out = [vendor "Z" "W"] /\ n = 1%nat /\ d = 1%nat.
Proof.
  destruct (deduplicate_retains_absent_keys new_table hist_table)
    as (out & n & d & Hd & _ & Hrows & _ & _ & Hn & Hsum).
  - reflexivity.
  - apply table_text_key_columns, vendor_is_vendor.
  - apply table_text_key_columns, vendor_is_vendor.
  - exists out, n, d. split; [exact Hd|].
    assert (Hout : rows out = [vendor "Z" "W"])
      by (rewrite Hrows; vm_compute; reflexivity).
    rewrite Hout in Hn. cbn in Hn, Hsum. subst n.
    repeat split; [exact Hout|]. now injection Hsum.
Defined.

(** C1, counterexample.  A new batch without the name column, against a
    non-empty history: [deduplicate] raises a [KeyError] and retains
    nothing, where the claim speaks of every new batch. *)
Lemma deduplicate_retains_absent_keys_counterexample :
  deduplicate bad_master hist_table = Raise (KeyError "Business Name")
  /\ ~ (forall new existing : DataFrame,
          empty existing = false ->
          exists out n d,
            deduplicate new existing = Ok (out, n, d)
            /\ forall r, r ∈ rows out <->
                 r ∈ rows new
                 /\ identity_key r ∉ historical_keys existing).
Proof.
  split; [vm_compute; reflexivity|].
  intros Hclaim.
  destruct (Hclaim bad_master hist_table eq_refl) as (out & n & d & Hd & _).
  vm_compute in Hd. discriminate Hd.
Qed.

Lemma deduplicate_idempotent_witness :
  exists g',
    deduplicate (table [vendor "Z" "W"])
                (combined_df hist_table (table [vendor "Z" "W"]))
    = Ok (g', O, 1%nat)
    /\ rows g' = [].
Proof.
  apply (deduplicate_idempotent new_table hist_table
           (table [vendor "Z" "W"]) 1%nat 1%nat).
  - left. apply table_all_text. intros r Hr.
    apply elem_of_cons in Hr as [->|Hr]; [apply vendor_is_vendor|].
    apply elem_of_cons in Hr as [->|Hr]; [apply vendor_is_vendor|].
    now apply elem_of_nil in Hr.
  - vm_compute. reflexivity.
Defined.

(** C2, counterexample.  A batch without the name column, against an empty
    history: the first call returns the batch itself, and the second call,
    against the merge of the history and that result, raises a [KeyError]
    instead of returning no record. *)
Lemma deduplicate_idempotent_counterexample :
  deduplicate bad_master (pd_DataFrame []) = Ok (bad_master, 1%nat, O)
  /\ deduplicate bad_master (combined_df (pd_DataFrame []) bad_master)
     = Raise (KeyError "Business Name")
  /\ ~ (forall batch hist g n d,
          deduplicate batch hist = Ok (g, n, d) ->
          exists g',
            deduplicate g (combined_df hist g) = Ok (g', O, length (rows g))
            /\ rows g' = []).
Proof.
  split; [vm_compute; reflexivity|]. split; [vm_compute; reflexivity|].
  intros Hclaim.
  destruct (Hclaim bad_master (pd_DataFrame []) bad_master 1%nat O eq_refl)
    as (g' & Hd & _).
  vm_compute in Hd. discriminate Hd.
Qed.

Lemma deduplicate_empty_history_witness :
  deduplicate new_table (pd_DataFrame []) = Ok (new_table, 2%nat, O).
Proof.
  apply (deduplicate_empty_history new_table (pd_DataFrame [])).
  reflexivity.
Defined.

(** The two records of the specification: "Acme Tents " at "MG Road" and
    "acme tents" at "mg road"; the record "Z" at "W" of the same new batch
    is kept. *)
Lemma identity_key_case_trim_insensitive_witness :
  identity_key (vendor "Acme Tents " "MG Road") = Some "acme tents||mg road"
  /\ identity_key (vendor "acme tents" "mg road") = Some "acme tents||mg road"
  /\ exists out n d,
       deduplicate (table [vendor "Acme Tents " "MG Road"; vendor "Z" "W"])
                   acme_hist = Ok (out, n, d)
       /\ (vendor "Acme Tents " "MG Road" ∉ rows out)
       /\ vendor "Z" "W" ∈ rows out
       /\ (1 <= d)%nat.
Proof.
  destruct (identity_key_case_trim_insensitive
              (table [vendor "Acme Tents " "MG Road"; vendor "Z" "W"])
              acme_hist
              (vendor "Acme Tents " "MG Road") (vendor "acme tents" "mg road")
              "Acme Tents " "MG Road" "acme tents" "mg road")
    as (Hk1 & Hk2 & _ & out & n & d & Hd & Hout & Hkeep & _ & Hdup).
  - split; unfold table; cbn [columns]; in_list.
  - split; unfold acme_hist, table; cbn [columns]; in_list.
  - in_list.
  - in_list.
  - reflexivity.
  - reflexivity.
  - reflexivity.
  - reflexivity.
  - vm_compute. reflexivity.
  - vm_compute. reflexivity.
  - split; [exact Hk1|]. split; [exact Hk2|].
    exists out, n, d. repeat split; try assumption.
    apply Hkeep; [in_list|]. intros Hin.
    apply elem_of_historical_keys in Hin as (r & Hr & Hkey).
    vm_compute in Hr. apply elem_of_cons in Hr as [->|Hr];
      [vm_compute in Hkey; discriminate Hkey|now apply elem_of_nil in Hr].
Defined.

Example acme_duplicate :
  deduplicate acme_new acme_hist = Ok (table [], O, 1%nat).
Proof. vm_compute. reflexivity. Qed.

Lemma deduplicate_requires_key_columns_witness :
  (exists e, deduplicate (pd_DataFrame []) hist_table = Raise e)
  /\ (text_key_columns hist_table ->
      deduplicate (pd_DataFrame []) hist_table
      = Raise (KeyError "Business Name"))
  /\ (forall new v, deduplicate new hist_table = Ok v -> has_key_columns new).
Proof.
  apply (deduplicate_requires_key_columns hist_table). reflexivity.
Defined.

Example zero_record_run :
  deduplicate (pd_DataFrame []) hist_table = Raise (KeyError "Business Name").
Proof. vm_compute. reflexivity. Qed.

(** A history whose address column holds no text: the string accessor
    raises before the new batch is looked at. *)
Example blank_address_history :
  deduplicate new_table blank_addresses = Raise AttributeError.
Proof. vm_compute. reflexivity. Qed.

(** * Further properties *)

(** ** Pagination *)

Section SearchFacts.
Context `{ListingSource}.

Lemma search_loop_stop category ok rest acc evs :
  Forall (yields category) ok ->
  (rest = [] \/ exists s rest', rest = s :: rest' /\ stops category s) ->
  search_loop category (ok ++ rest) acc evs
  = (acc ++ (ok ≫= fun s => default [] (fetch category s)),
     evs ++ paging_events category ok rest).
Proof.
  unfold paging_events.
  intros Hok Hrest. revert acc evs.
  induction Hok as [|s ok (p & ps & Hs) _ IH]; intros acc evs.
  - cbn [app mbind list_bind]. rewrite !app_nil_r.
    destruct Hrest as [->|(s & rest' & -> & Hs)].
    + cbn. now rewrite app_nil_r.
    + cbn [search_loop take fmap list_fmap].
      destruct Hs as [Hs|Hs]; now rewrite Hs.
  - change ((s :: ok) ++ rest) with (s :: (ok ++ rest)).
    cbn [search_loop]. rewrite Hs, IH, !bind_cons, Hs.
    cbn [default]. now rewrite <- !app_assoc.
Qed.

(** Every list of offsets splits at its first stopping page. *)
Lemma split_at_stop category (starts : list Z) :
  exists ok rest,
    starts = ok ++ rest /\ Forall (yields category) ok
    /\ (rest = [] \/ exists s rest', rest = s :: rest' /\ stops category s).
Proof.
  induction starts as [|s starts (ok & rest & -> & Hok & Hrest)].
  - exists [], []. auto.
  - destruct (fetch category s) as [[|p ps]|] eqn:Hs.
    + exists [], (s :: ok ++ rest). split; [reflexivity|].
      split; [constructor|].
      right. exists s, (ok ++ rest). split; [reflexivity|]. now right.
    + exists (s :: ok), rest. split; [reflexivity|]. split; [|exact Hrest].
      constructor; [now exists p, ps|exact Hok].
    + exists [], (s :: ok ++ rest). split; [reflexivity|].
      split; [constructor|].
      right. exists s, (ok ++ rest). split; [reflexivity|]. now left.
Qed.

Lemma paging_events_paced category ok rest :
  paced (paging_events category ok rest).
Proof.
  unfold paging_events. induction ok as [|s ok IH].
  - cbn. destruct rest; cbn; constructor.
  - rewrite bind_cons. cbn [app]. now constructor.
Qed.

Lemma paced_no_adjacent_requests evs i c s c' s' :
  paced evs -> evs !! i = Some (Request c s) ->
  evs !! S i <> Some (Request c' s').
Proof.
  intros Hp. revert i. induction Hp as [| |c0 s0 evs Hp IH]; intros i Hi.
  - discriminate.
  - destruct i; [discriminate|]. now destruct i.
  - destruct i as [|[|i]]; [discriminate|discriminate|].
    cbn in Hi |- *. now apply IH.
Qed.

(** The shape of every answer of [search_category]. *)
Lemma search_category_shape category :
  exists ok rest,
    [0; 20; 40]%Z = ok ++ rest /\ Forall (yields category) ok
    /\ (rest = [] \/ exists s rest', rest = s :: rest' /\ stops category s)
    /\ search_category category
       = (ok ≫= (fun s => default [] (fetch category s)),
          paging_events category ok rest).
Proof.
  destruct (split_at_stop category [0; 20; 40]%Z)
    as (ok & rest & Hsplit & Hok & Hrest).
  exists ok, rest. repeat split; auto.
  unfold search_category. rewrite Hsplit.
  now rewrite (search_loop_stop category ok rest [] [] Hok Hrest).
Qed.

Lemma paging_events_requests category ok rest :
  filter (fun e => e <> Sleep) (paging_events category ok rest)
  = Request category <$> (ok ++ take 1 rest).
Proof.
  unfold paging_events. rewrite filter_app, fmap_app. f_equal.
  - induction ok as [|s ok IH]; [reflexivity|].
    rewrite bind_cons. cbn [app].
    rewrite filter_cons_True by discriminate.
    rewrite filter_cons_False by (intros Hne; now apply Hne).
    rewrite fmap_cons. now rewrite IH.
  - destruct rest as [|s rest]; [reflexivity|]. cbn [take fmap list_fmap].
    rewrite filter_cons_True by discriminate. reflexivity.
Qed.

Lemma search_category_requests_le category :
  (length (filter (fun e => e <> Sleep) (search_category category).2)
   <= 3)%nat.
Proof.
  destruct (search_category_shape category)
    as (ok & rest & Hsplit & _ & _ & ->).
  cbn [snd]. rewrite paging_events_requests, length_fmap, length_app.
  rewrite length_take.
  assert ((length ok + length rest = 3)%nat)
    by (rewrite <- length_app, <- Hsplit; reflexivity).
  lia.
Qed.

End SearchFacts.

Section SearchProperties.
Context `{ListingSource}.

(** X1.  [search_category] stops at the first page that is empty or whose
    request raises: when the offsets 0, 20, 40 split into [ok], whose pages
    all have listings, and [rest], which is empty or starts with a stopping
    page, the result is the concatenation of the pages of [ok], in order;
    a request and a pause happen for each page of [ok], then the stopping
    request alone, and the later offsets are never requested. *)
Theorem search_category_stops_at_first_bad_page category ok rest :
  [0; 20; 40]%Z = ok ++ rest ->
  Forall (yields category) ok ->
  (rest = [] \/ exists s rest', rest = s :: rest' /\ stops category s) ->
  search_category category
  = (ok ≫= (fun s => default [] (fetch category s)),
     paging_events category ok rest).
Proof.
  intros Hsplit Hok Hrest. unfold search_category. rewrite Hsplit.
  now rewrite (search_loop_stop category ok rest [] [] Hok Hrest).
Qed.

(** X2.  Within one category two requests are never adjacent: a request
    that is followed by anything is followed by a pause. *)
Theorem search_category_paced category i c s c' s' :
  (search_category category).2 !! i = Some (Request c s) ->
  (search_category category).2 !! S i <> Some (Request c' s').
Proof.
  destruct (search_category_shape category) as (ok & rest & _ & _ & _ & ->).
  cbn [snd]. apply paced_no_adjacent_requests, paging_events_paced.
Qed.

(** X4.  At most three requests are sent for a category, and when no page
    of the provider holds more than twenty listings the result holds at most
    sixty. *)
Theorem search_category_bounds category :
  (forall s l, fetch category s = Some l -> (length l <= 20)%nat) ->
  (length (search_category category).1 <= 60)%nat
  /\ (length (filter (fun e => e <> Sleep) (search_category category).2)
      <= 3)%nat.
Proof.
  intros Hpage. split; [|apply search_category_requests_le].
  destruct (search_category_shape category)
    as (ok & rest & Hsplit & _ & _ & ->).
  cbn [fst].
  assert (Hlen : (length ok + length rest = 3)%nat)
    by (rewrite <- length_app, <- Hsplit; reflexivity).
  assert (Hres : (length (ok ≫= fun s => default [] (fetch category s))
                  <= 20 * length ok)%nat).
  { clear Hsplit Hlen. induction ok as [|s ok IH]; [cbn; lia|].
    rewrite bind_cons, length_app. cbn [length].
    assert (length (default [] (fetch category s)) <= 20)%nat.
    { destruct (fetch category s) as [l|] eqn:Hs; [now apply (Hpage s)|].
      cbn. lia. }
    lia. }
  lia.
Qed.

End SearchProperties.

(** X3.  A request that raises is treated as an empty page: two providers
    that, at each offset of a category, either answer alike or both stop the
    pagination give the same result and the same events. *)
Theorem search_category_failure_as_empty (S1 S2 : ListingSource) category :
  (forall s, @fetch S1 category s = @fetch S2 category s
             \/ (@stops S1 category s /\ @stops S2 category s)) ->
  @search_category S1 category = @search_category S2 category.
Proof.
  intros Hsame. unfold search_category.
  generalize (@nil Place) (@nil event).
  induction [0; 20; 40]%Z as [|s starts IH]; intros acc evs; [reflexivity|].
  cbn [search_loop].
  destruct (Hsame s) as [Heq|[[H1|H1] [H2|H2]]].
  - rewrite Heq. destruct (@fetch S2 category s) as [[|p ps]|]; auto.
  - now rewrite H1, H2.
  - now rewrite H1, H2.
  - now rewrite H1, H2.
  - now rewrite H1, H2.
Qed.

Lemma search_category_stops_at_first_bad_page_witness :
  @search_category SourceFixture.source "Tent House Bangalore"
  = ([0; 20]%Z ≫=
       (fun s => default []
                   (@fetch SourceFixture.source "Tent House Bangalore" s)),
     paging_events "Tent House Bangalore" [0; 20]%Z [40%Z]).
Proof.
  apply (@search_category_stops_at_first_bad_page SourceFixture.source
           "Tent House Bangalore" [0; 20]%Z [40%Z]).
  - reflexivity.
  - repeat constructor; eexists _, _; reflexivity.
  - right. exists 40%Z, []. split; [reflexivity|]. right. reflexivity.
Defined.

Example search_fixture_events :
  (@search_category SourceFixture.source "Tent House Bangalore").2
  = [ Request "Tent House Bangalore" 0; Sleep;
      Request "Tent House Bangalore" 20; Sleep;
      Request "Tent House Bangalore" 40 ].
Proof. reflexivity. Qed.

Lemma search_category_paced_witness :
  (@search_category SourceFixture.source "Tent House Bangalore").2 !! 1%nat
  <> Some (Request "Tent House Bangalore" 20).
Proof.
  apply (@search_category_paced SourceFixture.source "Tent House Bangalore"
           0%nat "Tent House Bangalore" 0%Z).
  reflexivity.
Defined.

Lemma search_category_bounds_witness :
  (length (@search_category SourceFixture.source "Tent House Bangalore").1
   <= 60)%nat
  /\ (length (filter (fun e => e <> Sleep)
                (@search_category SourceFixture.source
                   "Tent House Bangalore").2) <= 3)%nat.
Proof.
  apply (@search_category_bounds SourceFixture.source "Tent House Bangalore").
  intros s l Hl. cbn in Hl. unfold SourceFixture.pages in Hl. cbn in Hl.
  destruct (s =? 0)%Z; [injection Hl as <-; cbn; lia|].
  destruct (s =? 20)%Z; injection Hl as <-; cbn; lia.
Defined.

Lemma search_category_failure_as_empty_witness :
  @search_category SourceFixture.source "Tent House Bangalore"
  = @search_category SourceFixture.flaky "Tent House Bangalore".
Proof.
  apply (search_category_failure_as_empty SourceFixture.source
           SourceFixture.flaky "Tent House Bangalore").
  intros s. cbn. unfold SourceFixture.flaky_pages, SourceFixture.pages.
  cbn. destruct (s =? 40)%Z eqn:H40; [|now left].
  apply Z.eqb_eq in H40 as ->. right. split; [right|left]; reflexivity.
Defined.

(** ** Collection *)

Section RowFacts.

Lemma row_of_record_cells (r : VendorRecord) :
  cell (row_of_record r) "Business Name" = Str (Business_Name r)
  /\ cell (row_of_record r) "Address" = Str (Address r)
  /\ cell (row_of_record r) "Date Collected" = Str (Date_Collected r)
  /\ cell (row_of_record r) "Phone Valid" = Str (Phone_Valid r)
  /\ cell (row_of_record r) "Category" = Str (Category r).
Proof. repeat split; vm_compute; reflexivity. Qed.

(** The table built from records has either all ten columns and a row per
    record, or neither rows nor columns. *)
Lemma pd_DataFrame_shape (records : list VendorRecord) :
  (empty (pd_DataFrame records) = true <-> records = [])
  /\ (records <> [] -> has_key_columns (pd_DataFrame records))
  /\ length (rows (pd_DataFrame records)) = length records.
Proof.
  destruct records as [|r records].
  - split; [split; [reflexivity|reflexivity]|]. split; [congruence|reflexivity].
  - split; [split; discriminate|]. split.
    + intros _. split; unfold pd_DataFrame, record_columns; cbn [columns];
        in_list.
    + cbn [pd_DataFrame rows]. now rewrite length_fmap.
Qed.

Lemma pd_DataFrame_all_text (records : list VendorRecord) :
  records <> [] -> all_text (pd_DataFrame records).
Proof.
  intros Hne. split; [now apply pd_DataFrame_shape|].
  intros r Hr. cbn [pd_DataFrame rows] in Hr.
  apply list_elem_of_fmap in Hr as (v & -> & _).
  exists (Business_Name v), (Address v). split; vm_compute; reflexivity.
Qed.

Lemma keys_of_rows (df : DataFrame) (r : gmap string pyval) :
  r ∈ rows df -> identity_key r ∈ historical_keys df.
Proof. intros Hr. apply elem_of_historical_keys. now exists r. Qed.

End RowFacts.

Section CollectFacts.
Context `{PhoneNumbers} `{ListingSource}.
Variable TODAY : string.

Lemma extract_loop_omap places category acc :
  extract_loop TODAY places category acc
  = acc ++ omap (fun p => extract_record TODAY p category) places.
Proof.
  revert acc. induction places as [|p places IH]; intros acc.
  - cbn. now rewrite app_nil_r.
  - cbn [extract_loop omap list_omap].
    destruct (extract_record TODAY p category) as [r|]; rewrite IH.
    + now rewrite <- app_assoc.
    + reflexivity.
Qed.

Lemma collect_loop_bind categories acc evs :
  collect_loop TODAY categories acc evs
  = (acc ++ (categories ≫= fun c =>
               omap (fun p => extract_record TODAY p c)
                    (search_category c).1),
     evs ++ (categories ≫= fun c => (search_category c).2)).
Proof.
  revert acc evs. induction categories as [|c categories IH]; intros acc evs.
  - cbn. now rewrite !app_nil_r.
  - cbn [collect_loop].
    destruct (search_category c) as [places happened] eqn:Hc.
    rewrite IH, extract_loop_omap, !bind_cons, Hc. cbn [fst snd].
    now rewrite <- !app_assoc.
Qed.

Lemma extract_record_open place category :
  is_closed place = false ->
  exists r, extract_record TODAY place category = Some r.
Proof. intros Hopen. unfold extract_record. rewrite Hopen. eauto. Qed.

Lemma extract_record_closed place category :
  is_closed place = true -> extract_record TODAY place category = None.
Proof. intros Hc. unfold extract_record. now rewrite Hc. Qed.

Lemma length_omap_extract places category :
  length (omap (fun p => extract_record TODAY p category) places)
  = length (filter (fun p => is_closed p = false) places).
Proof.
  induction places as [|p places IH]; [reflexivity|].
  cbn [omap list_omap]. destruct (is_closed p) eqn:Hp.
  - rewrite (extract_record_closed _ _ Hp).
    rewrite filter_cons_False by (rewrite Hp; discriminate). exact IH.
  - destruct (extract_record_open p category Hp) as [r ->].
    rewrite filter_cons_True by exact Hp. cbn [length]. now rewrite IH.
Qed.

(** The records of a run, as a comprehension. *)
Lemma collect_all_vendors_records :
  (collect_all_vendors TODAY).1
  = pd_DataFrame (VENDOR_CATEGORIES ≫= fun c =>
                    omap (fun p => extract_record TODAY p c)
                         (search_category c).1).
Proof.
  unfold collect_all_vendors.
  pose proof (collect_loop_bind VENDOR_CATEGORIES [] []) as Hc.
  destruct (collect_loop TODAY VENDOR_CATEGORIES [] []) as [recs evs].
  cbn [fst]. injection Hc as -> _. reflexivity.
Qed.

(** Every collected record: where it comes from. *)
Lemma collected_record_origin r :
  r ∈ (VENDOR_CATEGORIES ≫= fun c =>
         omap (fun p => extract_record TODAY p c) (search_category c).1) ->
  exists c place,
    c ∈ VENDOR_CATEGORIES /\ place ∈ (search_category c).1
    /\ is_closed place = false
    /\ extract_record TODAY place c = Some r.
Proof.
  intros Hr. apply list_elem_of_bind in Hr as (c & Hr & Hc).
  apply list_elem_of_omap in Hr as (place & Hplace & Hrec).
  exists c, place. repeat split; auto.
  destruct (is_closed place) eqn:Hcl; [|reflexivity].
  rewrite (extract_record_closed _ _ Hcl) in Hrec. discriminate.
Qed.

(** The table of a run is empty exactly when it has no row; otherwise it
    has the key columns. *)
Lemma collected_table_shape :
  (empty (collect_all_vendors TODAY).1 = true
   <-> rows (collect_all_vendors TODAY).1 = [])
  /\ (empty (collect_all_vendors TODAY).1 = false ->
      has_key_columns (collect_all_vendors TODAY).1).
Proof.
  rewrite collect_all_vendors_records.
  set (records := VENDOR_CATEGORIES ≫= _).
  destruct (pd_DataFrame_shape records) as (Hempty & Hcols & _).
  split.
  - rewrite Hempty. cbn [pd_DataFrame rows]. split; [now intros ->|].
    now destruct records.
  - intros Hne. apply Hcols. intros Hnil. apply Hempty in Hnil. congruence.
Qed.

(** The name and the address of every collected row are texts. *)
Lemma collected_all_text :
  empty (collect_all_vendors TODAY).1 = false ->
  all_text (collect_all_vendors TODAY).1.
Proof.
  rewrite collect_all_vendors_records.
  set (records := VENDOR_CATEGORIES ≫= _).
  intros Hne. apply pd_DataFrame_all_text. intros Hnil.
  rewrite Hnil in Hne. discriminate Hne.
Qed.

Lemma collected_events :
  (collect_all_vendors TODAY).2
  = VENDOR_CATEGORIES ≫= fun c => (search_category c).2.
Proof.
  unfold collect_all_vendors.
  pose proof (collect_loop_bind VENDOR_CATEGORIES [] []) as Hc.
  destruct (collect_loop TODAY VENDOR_CATEGORIES [] []) as [recs evs].
  cbn [snd]. now injection Hc as _ ->.
Qed.

End CollectFacts.

Section CollectProperties.
Context `{PhoneNumbers} `{ListingSource}.
Variable TODAY : string.

Lemma short_categories_spec :
  Forall (fun c => PyStr.strip (PyStr.replace " Bangalore" EmptyString c)
                   ∈ short_categories) VENDOR_CATEGORIES.
Proof. unfold short_categories. repeat constructor; in_list. Qed.

(** X5.  The table of a run has one row per listing that is not closed, in
    the order of the categories and, within a category, of the pages: a row
    is in the table exactly when it is the record extracted from a listing
    returned for one of the configured categories, and the number of rows is
    the number of such listings that are not closed. *)
Theorem collect_all_vendors_rows :
  (forall row,
      row ∈ rows (collect_all_vendors TODAY).1 <->
      exists c place r,
        c ∈ VENDOR_CATEGORIES /\ place ∈ (search_category c).1
        /\ extract_record TODAY place c = Some r /\ row = row_of_record r)
  /\ length (rows (collect_all_vendors TODAY).1)
     = length (VENDOR_CATEGORIES ≫= fun c =>
                 filter (fun p => is_closed p = false) (search_category c).1).
Proof.
  rewrite collect_all_vendors_records. cbn [pd_DataFrame rows]. split.
  - intros row. rewrite list_elem_of_fmap. split.
    + intros (r & -> & Hr). apply list_elem_of_bind in Hr as (c & Hr & Hc).
      apply list_elem_of_omap in Hr as (place & Hplace & Hrec).
      exists c, place, r. split; [exact Hc|]. split; [exact Hplace|].
      split; [exact Hrec|reflexivity].
    + intros (c & place & r & Hc & Hplace & Hrec & ->).
      exists r. split; [reflexivity|]. apply list_elem_of_bind.
      exists c. split; [|exact Hc]. apply list_elem_of_omap.
      exists place. split; [exact Hplace|exact Hrec].
  - rewrite length_fmap.
    induction VENDOR_CATEGORIES as [|c cs IH]; [reflexivity|].
    rewrite !bind_cons, !length_app, IH. f_equal. apply length_omap_extract.
Qed.

(** X6.  Every row of the table of a run has a name and an address that
    are texts, hence an Identity Key that is not missing; its collection
    date is the date of the run, its validity flag is "Yes" or "No", and its
    category is one of the ten configured labels without the qualifier. *)
Theorem collect_all_vendors_row_invariants row :
  row ∈ rows (collect_all_vendors TODAY).1 ->
  (exists name addr,
      cell row "Business Name" = Str name /\ cell row "Address" = Str addr
      /\ identity_key row
         = Some ((PyStr.strip (PyStr.lower name) +:+ "||")
                 +:+ PyStr.strip (PyStr.lower addr)))
  /\ cell row "Date Collected" = Str TODAY
  /\ (cell row "Phone Valid" = Str "Yes" \/ cell row "Phone Valid" = Str "No")
  /\ exists short,
       short ∈ short_categories /\ cell row "Category" = Str short.
Proof.
  rewrite collect_all_vendors_records. cbn [pd_DataFrame rows].
  intros Hrow. apply list_elem_of_fmap in Hrow as (r & -> & Hr).
  apply collected_record_origin in Hr as (c & place & Hc & _ & Hopen & Hrec).
  destruct (row_of_record_cells r) as (Hn & Ha & Hd & Hv & Hcat).
  unfold extract_record in Hrec. rewrite Hopen in Hrec.
  injection Hrec as <-. cbn [Business_Name Address Date_Collected Phone_Valid
                             Category] in *.
  split; [|split; [exact Hd|split]].
  - eexists _, _. split; [exact Hn|]. split; [exact Ha|].
    unfold identity_key. now rewrite Hn, Ha.
  - rewrite Hv. destruct (truthy _); auto.
  - eexists. split; [|exact Hcat].
    pose proof short_categories_spec as Hall.
    rewrite Forall_forall in Hall. now apply Hall.
Qed.

(** X7.  The table of a run is empty exactly when it has no row, and a
    table that is not empty has the name and address columns, with a text
    in every row; so [deduplicate] returns on it against every historical
    batch that is empty or has these two columns as columns of text. *)
Theorem collect_all_vendors_deduplicable hist :
  empty hist = true \/ text_key_columns hist ->
  let new_df := (collect_all_vendors TODAY).1 in
  (empty new_df = true <-> rows new_df = [])
  /\ (empty new_df = false ->
      all_text new_df
      /\ exists out n d, deduplicate new_df hist = Ok (out, n, d)).
Proof.
  intros Hhist new_df. subst new_df.
  destruct (collected_table_shape TODAY) as [Hempty _].
  split; [exact Hempty|]. intros Hne.
  pose proof (collected_all_text TODAY Hne) as Htext.
  split; [exact Htext|].
  destruct (deduplicate_defined _ hist (all_text_text_key_columns _ Htext)
                                Hhist) as [[[out n] d] Hd].
  now exists out, n, d.
Qed.

(** X8.  A run sends at most thirty requests to the provider, each for one
    of the configured categories. *)
Theorem collect_all_vendors_requests :
  (length (filter (fun e => e <> Sleep) (collect_all_vendors TODAY).2)
   <= 30)%nat
  /\ forall c s, Request c s ∈ (collect_all_vendors TODAY).2 ->
                 c ∈ VENDOR_CATEGORIES /\ s ∈ [0; 20; 40]%Z.
Proof.
  rewrite collected_events. split.
  - assert (Hle : forall cs : list string,
               (length (filter (fun e => e <> Sleep)
                               (cs ≫= fun c => (search_category c).2))
                <= 3 * length cs)%nat).
    { induction cs as [|c cs IH]; [cbn; lia|].
      rewrite bind_cons, filter_app, length_app. cbn [length].
      pose proof (search_category_requests_le c). lia. }
    pose proof (Hle VENDOR_CATEGORIES) as Hall.
    change (length VENDOR_CATEGORIES) with 10%nat in Hall. lia.
  - intros c s Hreq. apply list_elem_of_bind in Hreq as (c0 & Hreq & Hc0).
    destruct (search_category_shape c0) as (ok & rest & Hsplit & _ & _ & Heq).
    rewrite Heq in Hreq. cbn [snd] in Hreq.
    assert (Hin : Request c s ∈ filter (fun e => e <> Sleep)
                                       (paging_events c0 ok rest))
      by (apply list_elem_of_filter; split; [discriminate|exact Hreq]).
    rewrite paging_events_requests in Hin.
    apply list_elem_of_fmap in Hin as (s0 & [= -> ->] & Hs0).
    split; [exact Hc0|]. rewrite Hsplit.
    apply elem_of_app in Hs0 as [Hs0|Hs0]; apply elem_of_app; [now left|].
    right. destruct rest as [|x rest]; [now apply elem_of_nil in Hs0|].
    cbn in Hs0. apply elem_of_cons in Hs0 as [->|Hs0]; [in_list|].
    now apply elem_of_nil in Hs0.
Qed.

End CollectProperties.

Lemma collect_all_vendors_row_invariants_witness :
  (exists name addr,
      cell (row_of_record open_record) "Business Name" = Str name
      /\ cell (row_of_record open_record) "Address" = Str addr
      /\ identity_key (row_of_record open_record)
         = Some ((PyStr.strip (PyStr.lower name) +:+ "||")
                 +:+ PyStr.strip (PyStr.lower addr)))
  /\ cell (row_of_record open_record) "Date Collected" = Str run_date
  /\ (cell (row_of_record open_record) "Phone Valid" = Str "Yes"
      \/ cell (row_of_record open_record) "Phone Valid" = Str "No")
  /\ exists short,
       short ∈ short_categories
       /\ cell (row_of_record open_record) "Category" = Str short.
Proof.
  apply (@collect_all_vendors_row_invariants Fixture.lib SourceFixture.source
           run_date (row_of_record open_record)).
  vm_compute. in_list.
Defined.

Lemma collect_all_vendors_deduplicable_witness :
  let new_df :=
    (@collect_all_vendors Fixture.lib SourceFixture.source run_date).1 in
  (empty new_df = true <-> rows new_df = [])
  /\ (empty new_df = false ->
      all_text new_df
      /\ exists out n d, deduplicate new_df hist_table = Ok (out, n, d)).
Proof.
  apply (@collect_all_vendors_deduplicable Fixture.lib SourceFixture.source
           run_date hist_table).
  right. apply table_text_key_columns, vendor_is_vendor.
Defined.

Example collect_fixture_length :
  length (rows (@collect_all_vendors Fixture.lib SourceFixture.source
                  run_date).1) = 2%nat.
Proof. vm_compute. reflexivity. Qed.


(** ** The run *)

Section FilterFacts.
Context {A : Type} (P : A -> Prop) `{!forall x, Decision (P x)}.

Lemma filter_all (l : list A) : (forall x, x ∈ l -> P x) -> filter P l = l.
Proof.
  induction l as [|x l IH]; intros Hall; [reflexivity|].
  rewrite filter_cons_True by (apply Hall; apply list_elem_of_here).
  f_equal. apply IH. intros y Hy. apply Hall. now apply list_elem_of_further.
Qed.

Lemma filter_none (l : list A) :
  (forall x, x ∈ l -> ~ P x) -> filter P l = [].
Proof.
  induction l as [|x l IH]; intros Hall; [reflexivity|].
  rewrite filter_cons_False by (apply Hall; apply list_elem_of_here).
  apply IH. intros y Hy. apply Hall. now apply list_elem_of_further.
Qed.

End FilterFacts.

Section RunFacts.
Implicit Types (new existing : DataFrame).

Lemma run_fresh_first new existing :
  empty existing = true -> run_fresh existing new = rows new.
Proof.
  intros He. unfold run_fresh, run_kept. rewrite He.
  apply filter_all. intros r _. apply not_elem_of_empty.
Qed.

Lemma run_fresh_later new existing :
  empty existing = false ->
  run_fresh existing new
  = filter (fun r => identity_key r ∉ historical_keys existing) (rows new).
Proof. intros He. unfold run_fresh, run_kept. now rewrite He. Qed.

(** What [deduplicate] returns in a run. *)
Lemma deduplicate_run new existing :
  text_key_columns new ->
  empty existing = true \/ text_key_columns existing ->
  exists n d,
    deduplicate new existing = Ok (run_new_only existing new, n, d).
Proof.
  intros Hn Hok. unfold run_new_only.
  destruct (empty existing) eqn:He.
  - rewrite (run_fresh_first _ _ He). unfold deduplicate. rewrite He.
    destruct new. eauto.
  - destruct Hok as [Hok|Hk]; [discriminate|].
    rewrite (run_fresh_later _ _ He), (deduplicate_filter _ _ He Hn Hk).
    eauto.
Qed.

Lemma run_new_only_empty new existing :
  has_key_columns new ->
  empty (run_new_only existing new)
  = match run_fresh existing new with [] => true | _ :: _ => false end.
Proof.
  intros Hn. unfold empty, run_new_only. cbn [columns rows].
  apply has_key_columns_nonempty in Hn.
  destruct (columns new); [congruence|]. now destruct (run_fresh _ _).
Qed.

(** The table written back: the kept rows, then the new ones; it is not
    empty, and it has the key columns. *)
Lemma run_master_shape new existing :
  empty new = false -> has_key_columns new ->
  empty existing = true \/ has_key_columns existing ->
  rows (run_master existing new) = run_kept existing ++ run_fresh existing new
  /\ empty (run_master existing new) = false
  /\ has_key_columns (run_master existing new)
  /\ (forall r, r ∈ rows new ->
                identity_key r ∈ historical_keys (run_master existing new)).
Proof.
  intros Hne Hn Hok. unfold run_master, combined_df.
  rewrite (run_new_only_empty _ existing Hn).
  destruct (empty existing) eqn:He; cbn [negb andb].
  - assert (Hg : run_new_only existing new = new).
    { unfold run_new_only. rewrite (run_fresh_first _ _ He). now destruct new. }
    rewrite Hg. unfold run_kept. rewrite He, (run_fresh_first _ _ He).
    split; [reflexivity|]. split; [exact Hne|]. split; [exact Hn|].
    apply keys_of_rows.
  - destruct Hok as [Hok|Hk]; [discriminate|].
    unfold run_kept. rewrite He.
    assert (Hkeys : forall m, (forall r, r ∈ rows existing -> r ∈ rows m) ->
              (forall r, r ∈ run_fresh existing new -> r ∈ rows m) ->
              forall r, r ∈ rows new -> identity_key r ∈ historical_keys m).
    { intros m Hm1 Hm2 r Hr. apply elem_of_historical_keys.
      destruct (decide (identity_key r ∈ historical_keys existing))
        as [Hin|Hout].
      - apply elem_of_historical_keys in Hin as (y & Hy & Hky).
        exists y. auto.
      - exists r. split; [|reflexivity]. apply Hm2.
        rewrite (run_fresh_later _ _ He). apply list_elem_of_filter. auto. }
    destruct (run_fresh existing new) as [|r fresh] eqn:Hf; cbn [negb].
    + rewrite app_nil_r. split; [reflexivity|]. split; [exact He|].
      split; [exact Hk|].
      apply Hkeys; [auto|]. intros x Hx. now apply elem_of_nil in Hx.
    + cbn [concat rows]. unfold run_new_only at 1. rewrite Hf. cbn [rows].
      split; [reflexivity|]. split; [|split].
      * apply empty_false. apply empty_false in He as [Hc Hr].
        cbn [concat columns rows]. split.
        -- destruct (columns existing); [congruence|discriminate].
        -- destruct (rows existing); [congruence|discriminate].
      * destruct Hk as [Hk1 Hk2]. split; cbn [concat columns];
          apply elem_of_app; now left.
      * apply Hkeys; intros x Hx; cbn [concat rows]; apply elem_of_app;
          [now left|right]. unfold run_new_only. rewrite Hf. exact Hx.
Qed.

(** Why [make_key] raises: a key column is not there, or it is there and
    holds no text. *)
Lemma make_key_Raise_inv (df : DataFrame) x :
  make_key df = Raise x ->
  exists col,
    (col = "Business Name" \/ col = "Address")
    /\ ((x = KeyError col /\ col ∉ columns df)
        \/ (x = AttributeError /\ col ∈ columns df /\ ~ text_column df col)).
Proof.
  unfold make_key, getitem, str_accessor, text_column.
  set (names := (fun r => default NaN (r !! "Business Name")) <$> rows df).
  set (addrs := (fun r => default NaN (r !! "Address")) <$> rows df).
  case_bool_decide as Hn; cbn [bind];
    [|intros [= <-]; exists "Business Name"; auto].
  destruct (holds_text names) eqn:Hnt; cbn [bind].
  - case_bool_decide as Ha; cbn [bind];
      [|intros [= <-]; exists "Address"; auto].
    destruct (holds_text addrs) eqn:Hat; cbn [bind]; [discriminate|].
    intros [= <-]. exists "Address". split; [now right|]. right.
    split; [reflexivity|]. split; [exact Ha|]. intros [_ Hc].
    fold addrs in Hc. congruence.
  - intros [= <-]. exists "Business Name". split; [now left|]. right.
    split; [reflexivity|]. split; [exact Hn|]. intros [_ Hc].
    fold names in Hc. congruence.
Qed.

Lemma deduplicate_Raise_inv new existing e :
  deduplicate new existing = Raise e ->
  empty existing = false
  /\ (make_key existing = Raise e
      \/ (text_key_columns existing /\ make_key new = Raise e)).
Proof.
  intros Hd. destruct (empty existing) eqn:Hex.
  { unfold deduplicate in Hd. rewrite Hex in Hd. discriminate. }
  split; [reflexivity|].
  unfold deduplicate in Hd. rewrite Hex in Hd.
  destruct (make_key existing) as [ks|x] eqn:Hk; cbn [bind] in Hd.
  - destruct (make_key new) as [kn|y] eqn:Hn; cbn [bind] in Hd;
      [discriminate|]. injection Hd as <-. right.
    split; [now apply make_key_inv in Hk|reflexivity].
  - injection Hd as <-. now left.
Qed.

End RunFacts.

Section MainFacts.
Context `{PhoneNumbers} `{ListingSource} `{ReportSink}.
Variable TODAY : string.

(** The exports of a run on the new rows [g] and the table [m] to write
    back. *)
Lemma main_run key master_file :
  key <> "YOUR_SERPAPI_KEY_HERE" ->
  main TODAY key master_file
  = if empty (collect_all_vendors TODAY).1
    then ((collect_all_vendors TODAY).2, [], None)
    else
      match deduplicate (collect_all_vendors TODAY).1
                        (load_existing_master master_file) with
      | Raise e => ((collect_all_vendors TODAY).2, [], Some (Uncaught e))
      | Ok (new_only_df, _, _) =>
          let dated :=
            if negb (empty new_only_df)
            then export_to_excel new_only_df (DATED_FILE TODAY)
            else ([], None) in
          let master :=
            export_to_excel
              (combined_df (load_existing_master master_file) new_only_df)
              MASTER_FILE in
          match dated.2 with
          | Some e => ((collect_all_vendors TODAY).2, dated.1, Some e)
          | None =>
              ((collect_all_vendors TODAY).2, dated.1 ++ master.1, master.2)
          end
      end.
Proof.
  intros Hkey. unfold main.
  apply String.eqb_neq in Hkey. rewrite Hkey.
  destruct (collect_all_vendors TODAY) as [df evs]. cbn [fst snd].
  destruct (empty df); [reflexivity|].
  destruct (deduplicate df _) as [[[g n] d]|e]; [|reflexivity].
  cbv zeta.
  destruct (if negb (empty g) then _ else _) as [dated [e|]];
    [reflexivity|].
  now destruct (export_to_excel _ MASTER_FILE) as [master raised].
Qed.

(** Every way a run with collected records and a usable master can end. *)
Lemma main_outcome key master_file :
  key <> "YOUR_SERPAPI_KEY_HERE" ->
  empty (collect_all_vendors TODAY).1 = false ->
  empty (load_existing_master master_file) = true
  \/ text_key_columns (load_existing_master master_file) ->
  let events := (collect_all_vendors TODAY).2 in
  let g := run_new_only (load_existing_master master_file)
                        (collect_all_vendors TODAY).1 in
  let m := run_master (load_existing_master master_file)
                      (collect_all_vendors TODAY).1 in
  let dated := if empty g then ([], None)
               else export_to_excel g (DATED_FILE TODAY) in
  let master := export_to_excel m MASTER_FILE in
  main TODAY key master_file
  = match dated.2 with
    | Some e => (events, dated.1, Some e)
    | None => (events, dated.1 ++ master.1, master.2)
    end.
Proof.
  intros Hkey Hnew Hok. cbv zeta.
  pose proof (collected_all_text TODAY Hnew) as Htext.
  apply all_text_text_key_columns in Htext.
  rewrite (main_run key master_file Hkey), Hnew.
  destruct (deduplicate_run _ _ Htext Hok) as (n & d & ->). cbv zeta.
  change (combined_df ?e (run_new_only ?e ?df)) with (run_master e df).
  now destruct (empty (run_new_only _ _)).
Qed.

(** A completed export of a table that is not empty. *)
Lemma export_to_excel_completes df path :
  empty df = false -> exportable df path = true ->
  export_to_excel df path
  = ([ {| filepath := path; exported := df; formatted := true |} ], None).
Proof. intros He Hx. unfold export_to_excel. now rewrite He, Hx. Qed.

Lemma export_to_excel_raises df path :
  empty df = false -> exportable df path = false ->
  export_to_excel df path
  = (if left_on_disk df path
     then [ {| filepath := path; exported := df; formatted := false |} ]
     else [],
     Some ExportRaised).
Proof.
  intros He Hx. unfold export_to_excel. rewrite He, Hx.
  now destruct (left_on_disk df path).
Qed.

End MainFacts.

Section MainProperties.
Context `{PhoneNumbers} `{ListingSource} `{ReportSink}.
Variable TODAY : string.

(** X9.  With the placeholder as key the run ends with [ValueError] before
    any request is sent and nothing is written; with any other key the
    requests of the collection are all sent and the run never ends with
    [ValueError]. *)
Theorem main_key_check key master_file :
  (key = "YOUR_SERPAPI_KEY_HERE" ->
   main TODAY key master_file = ([], [], Some ValueError))
  /\ (key <> "YOUR_SERPAPI_KEY_HERE" ->
      (main TODAY key master_file).1.1 = (collect_all_vendors TODAY).2
      /\ (main TODAY key master_file).2 <> Some ValueError).
Proof.
  split.
  - intros ->. reflexivity.
  - intros Hkey. rewrite (main_run TODAY key master_file Hkey).
    destruct (empty _); [split; [reflexivity|discriminate]|].
    destruct (deduplicate _ _) as [[[g n] d]|e];
      [|split; [reflexivity|discriminate]].
    cbv zeta. unfold export_to_excel.
    destruct (negb (empty g)); [destruct (empty g)|];
      repeat match goal with
             | |- context [if ?b then _ else _] => destruct b
             end; split; try reflexivity; discriminate.
Qed.

(** X10.  When the collection yields no record, nothing is written and the
    run ends normally, whatever the state of the master file, which is not
    consulted. *)
Theorem main_no_listing key master_file :
  key <> "YOUR_SERPAPI_KEY_HERE" ->
  rows (collect_all_vendors TODAY).1 = [] ->
  main TODAY key master_file = ((collect_all_vendors TODAY).2, [], None).
Proof.
  intros Hkey Hrows. rewrite (main_run TODAY key master_file Hkey).
  destruct (collected_table_shape TODAY) as [Hempty _].
  now rewrite (proj2 Hempty Hrows).
Qed.

(** X11.  When a run ends with an exception of [deduplicate], nothing has
    been written, records were collected, and the master that was read has
    rows and columns; the exception comes from the keys of the master: it
    is a [KeyError] for the name or the address column, which the master
    lacks, or an [AttributeError] for one of the two, which the master has
    but not as a column of text. *)
Theorem main_deduplicate_error key master_file e :
  (main TODAY key master_file).2 = Some (Uncaught e) ->
  (main TODAY key master_file).1.2 = []
  /\ empty (collect_all_vendors TODAY).1 = false
  /\ empty (load_existing_master master_file) = false
  /\ make_key (load_existing_master master_file) = Raise e
  /\ exists col,
       (col = "Business Name" \/ col = "Address")
       /\ ((e = KeyError col
            /\ col ∉ columns (load_existing_master master_file))
           \/ (e = AttributeError
               /\ col ∈ columns (load_existing_master master_file)
               /\ ~ text_column (load_existing_master master_file) col)).
Proof.
  destruct (decide (key = "YOUR_SERPAPI_KEY_HERE")) as [->|Hkey];
    [discriminate|].
  rewrite (main_run TODAY key master_file Hkey).
  destruct (empty (collect_all_vendors TODAY).1) eqn:Hnew; [discriminate|].
  destruct (deduplicate _ _) as [[[g n] d]|x] eqn:Hd.
  - cbv zeta. unfold export_to_excel.
    destruct (negb (empty g)); [destruct (empty g)|];
      repeat match goal with
             | |- context [if ?b then _ else _] => destruct b
             end; discriminate.
  - cbn [fst snd]. intros [= <-].
    apply deduplicate_Raise_inv in Hd as (Hex & Hwhy).
    assert (Hmk : make_key (load_existing_master master_file) = Raise x).
    { destruct Hwhy as [Hmk|[_ Hmk]]; [exact Hmk|].
      pose proof (collected_all_text TODAY Hnew) as Htext.
      apply all_text_text_key_columns in Htext.
      rewrite (make_key_Ok _ Htext) in Hmk. discriminate Hmk. }
    split; [reflexivity|]. split; [reflexivity|]. split; [exact Hex|].
    split; [exact Hmk|]. now apply make_key_Raise_inv.
Qed.

(** X12.  With a usable key, at least one collected record, a master that
    is empty or has the name and address columns as columns of text, and
    exports that complete, the run ends normally; it writes the master
    last, as the rows kept of the master read followed by the collected
    rows whose key is not among theirs, and before it the dated file with
    exactly those new rows, unless there is none. *)
Theorem main_artifacts key master_file :
  key <> "YOUR_SERPAPI_KEY_HERE" ->
  empty (collect_all_vendors TODAY).1 = false ->
  empty (load_existing_master master_file) = true
  \/ text_key_columns (load_existing_master master_file) ->
  let existing := load_existing_master master_file in
  let new_df := (collect_all_vendors TODAY).1 in
  exportable (run_new_only existing new_df) (DATED_FILE TODAY) = true ->
  exportable (run_master existing new_df) MASTER_FILE = true ->
  main TODAY key master_file
  = ((collect_all_vendors TODAY).2,
     match run_fresh existing new_df with
     | [] => []
     | _ :: _ => [ {| filepath := DATED_FILE TODAY;
                      exported := run_new_only existing new_df;
                      formatted := true |} ]
     end ++ [ {| filepath := MASTER_FILE;
                 exported := run_master existing new_df;
                 formatted := true |} ],
     None)
  /\ rows (run_master existing new_df)
     = run_kept existing ++ run_fresh existing new_df.
Proof.
  intros Hkey Hnew Hok existing new_df Hd Hm. subst existing new_df.
  destruct (collected_table_shape TODAY) as [_ Hcols].
  specialize (Hcols Hnew).
  assert (Hok' : empty (load_existing_master master_file) = true
                 \/ has_key_columns (load_existing_master master_file))
    by (destruct Hok; auto using text_key_columns_has_key).
  destruct (run_master_shape _ _ Hnew Hcols Hok') as (Hrows & Hme & _).
  split; [|exact Hrows].
  rewrite (main_outcome TODAY key master_file Hkey Hnew Hok).
  rewrite (export_to_excel_completes _ _ Hme Hm).
  pose proof (run_new_only_empty _ (load_existing_master master_file) Hcols)
    as Hg.
  destruct (run_fresh _ _); rewrite Hg; [reflexivity|].
  now rewrite (export_to_excel_completes _ _ Hg Hd).
Qed.

(** X26.  The two writes of a run are not atomic, and the dated file comes
    first.  When there are new rows and the export of the dated file
    raises, the run ends there: the master is neither written nor updated,
    and of the dated file at most the workbook without its formatting is on
    the disk.  When the export of the dated file completes and the export
    of the master raises, the dated file stays written, and of the master
    at most the workbook without its formatting. *)
Theorem main_export_failures key master_file :
  key <> "YOUR_SERPAPI_KEY_HERE" ->
  empty (collect_all_vendors TODAY).1 = false ->
  empty (load_existing_master master_file) = true
  \/ text_key_columns (load_existing_master master_file) ->
  let existing := load_existing_master master_file in
  let new_df := (collect_all_vendors TODAY).1 in
  let g := run_new_only existing new_df in
  let m := run_master existing new_df in
  run_fresh existing new_df <> [] ->
  (exportable g (DATED_FILE TODAY) = false ->
   main TODAY key master_file
   = ((collect_all_vendors TODAY).2,
      if left_on_disk g (DATED_FILE TODAY)
      then [ {| filepath := DATED_FILE TODAY; exported := g;
                formatted := false |} ]
      else [],
      Some ExportRaised))
  /\ (exportable g (DATED_FILE TODAY) = true ->
      exportable m MASTER_FILE = false ->
      main TODAY key master_file
      = ((collect_all_vendors TODAY).2,
         {| filepath := DATED_FILE TODAY; exported := g; formatted := true |}
         :: (if left_on_disk m MASTER_FILE
             then [ {| filepath := MASTER_FILE; exported := m;
                       formatted := false |} ]
             else []),
         Some ExportRaised)).
Proof.
  intros Hkey Hnew Hok existing new_df g m Hfresh.
  subst g m existing new_df.
  destruct (collected_table_shape TODAY) as [_ Hcols].
  specialize (Hcols Hnew).
  assert (Hok' : empty (load_existing_master master_file) = true
                 \/ has_key_columns (load_existing_master master_file))
    by (destruct Hok; auto using text_key_columns_has_key).
  destruct (run_master_shape _ _ Hnew Hcols Hok') as (_ & Hme & _).
  rewrite (main_outcome TODAY key master_file Hkey Hnew Hok).
  pose proof (run_new_only_empty _ (load_existing_master master_file) Hcols)
    as Hg.
  destruct (run_fresh _ _); [congruence|]. rewrite Hg.
  split.
  - intros Hd. now rewrite (export_to_excel_raises _ _ Hg Hd).
  - intros Hd Hm. rewrite (export_to_excel_completes _ _ Hg Hd).
    now rewrite (export_to_excel_raises _ _ Hme Hm).
Qed.

End MainProperties.

Lemma main_key_check_witness :
  @main Fixture.lib SourceFixture.source SourceFixture.sink run_date
    "YOUR_SERPAPI_KEY_HERE" None
  = ([], [], Some ValueError).
Proof.
  apply (proj1 (@main_key_check Fixture.lib SourceFixture.source
                  SourceFixture.sink run_date "YOUR_SERPAPI_KEY_HERE" None)).
  reflexivity.
Defined.

Lemma main_no_listing_witness :
  @main Fixture.lib SourceFixture.silent SourceFixture.sink run_date "key"
    (Some (Some bad_master))
  = ((@collect_all_vendors Fixture.lib SourceFixture.silent run_date).2,
     [], None).
Proof.
  apply (@main_no_listing Fixture.lib SourceFixture.silent SourceFixture.sink
           run_date "key" (Some (Some bad_master))).
  - discriminate.
  - vm_compute. reflexivity.
Defined.

(** A master whose address column holds no text. *)
Lemma main_deduplicate_error_witness :
  (@main Fixture.lib SourceFixture.source SourceFixture.sink run_date
     "key" (Some (Some blank_addresses))).2 = Some (Uncaught AttributeError)
  /\ (@main Fixture.lib SourceFixture.source SourceFixture.sink run_date
        "key" (Some (Some blank_addresses))).1.2 = []
  /\ make_key (load_existing_master (Some (Some blank_addresses)))
     = Raise AttributeError.
Proof.
  assert (Hend : (@main Fixture.lib SourceFixture.source SourceFixture.sink
                    run_date "key" (Some (Some blank_addresses))).2
                 = Some (Uncaught AttributeError))
    by (vm_compute; reflexivity).
  destruct (@main_deduplicate_error Fixture.lib SourceFixture.source
              SourceFixture.sink run_date "key" (Some (Some blank_addresses))
              AttributeError Hend) as (Hnone & _ & _ & Hmk & _).
  split; [exact Hend|]. split; [exact Hnone|exact Hmk].
Defined.

(** A master without the name column. *)
Example main_bad_master :
  @main Fixture.lib SourceFixture.source SourceFixture.sink run_date
    "key" (Some (Some bad_master))
  = ((@collect_all_vendors Fixture.lib SourceFixture.source run_date).2, [],
     Some (Uncaught (KeyError "Business Name"))).
Proof. vm_compute. reflexivity. Qed.

(** A run of the fixture against the one-vendor history: both collected
    vendors are new. *)
Lemma main_artifacts_witness :
  exists dated master,
    (@main Fixture.lib SourceFixture.source SourceFixture.sink run_date "key"
       (Some (Some hist_table)))
    = ((@collect_all_vendors Fixture.lib SourceFixture.source run_date).2,
       [ {| filepath := "Bangalore_Vendors_26-Feb-2026.xlsx";
            exported := dated; formatted := true |};
         {| filepath := "Bangalore_Vendors_Master_List.xlsx";
            exported := master; formatted := true |} ],
       None)
    /\ length (rows dated) = 2%nat /\ length (rows master) = 3%nat.
Proof.
  destruct (@main_artifacts Fixture.lib SourceFixture.source
              SourceFixture.sink run_date "key" (Some (Some hist_table)))
    as (Hmain & Hrows).
  - discriminate.
  - vm_compute. reflexivity.
  - right. apply table_text_key_columns, vendor_is_vendor.
  - reflexivity.
  - reflexivity.
  - eexists _, _. split; [|split].
    + rewrite Hmain. vm_compute. reflexivity.
    + vm_compute. reflexivity.
    + vm_compute. reflexivity.
Defined.

(** The master cannot be written: the dated file is there, the master is
    not. *)
Lemma main_export_failures_witness :
  exists dated,
    @main Fixture.lib SourceFixture.source SourceFixture.master_locked
      run_date "key" None
    = ((@collect_all_vendors Fixture.lib SourceFixture.source run_date).2,
       [ {| filepath := "Bangalore_Vendors_26-Feb-2026.xlsx";
            exported := dated; formatted := true |} ],
       Some ExportRaised).
Proof.
  destruct (@main_export_failures Fixture.lib SourceFixture.source
              SourceFixture.master_locked run_date "key" None)
    as (_ & Hlocked).
  - discriminate.
  - vm_compute. reflexivity.
  - left. reflexivity.
  - vm_compute. discriminate.
  - eexists. rewrite Hlocked; [|reflexivity..]. vm_compute. reflexivity.
Defined.

(** The formatting cannot be saved: the run ends at the dated file, whose
    workbook is on the disk, and the master is not written. *)
Example main_unformatted :
  exists dated,
    @main Fixture.lib SourceFixture.source SourceFixture.unformatted
      run_date "key" None
    = ((@collect_all_vendors Fixture.lib SourceFixture.source run_date).2,
       [ {| filepath := "Bangalore_Vendors_26-Feb-2026.xlsx";
            exported := dated; formatted := false |} ],
       Some ExportRaised).
Proof. eexists. vm_compute. reflexivity. Qed.

(** ** More on the deduplicator *)

Section DedupMore.
Implicit Types (new existing e h : DataFrame) (r : gmap string pyval).

Lemma historical_keys_concat h1 h2 :
  historical_keys (concat h1 h2) = historical_keys h1 ∪ historical_keys h2.
Proof.
  unfold historical_keys. cbn [concat rows].
  now rewrite fmap_app, list_to_set_app_L.
Qed.

Lemma concat_shape h1 h2 :
  empty h1 = false -> has_key_columns h1 ->
  empty (concat h1 h2) = false /\ has_key_columns (concat h1 h2).
Proof.
  intros Hne [Hn Ha]. split.
  - apply empty_false. apply empty_false in Hne as [Hc Hr].
    cbn [concat columns rows]. split.
    + destruct (columns h1); [congruence|discriminate].
    + destruct (rows h1); [congruence|discriminate].
  - split; cbn [concat columns]; apply elem_of_app; now left.
Qed.


(** The result of every returning call. *)
Lemma deduplicate_Ok_rows new existing out n d :
  deduplicate new existing = Ok (out, n, d) ->
  exists keys : gset (option string),
    out = {| columns := columns new;
             rows := filter (fun r => identity_key r ∉ keys) (rows new) |}
    /\ n = length (rows out)
    /\ d = length (filter (fun r => identity_key r ∈ keys) (rows new))
    /\ (empty existing = true -> keys = ∅)
    /\ (empty existing = false -> keys = historical_keys existing).
Proof.
  intros Hd. destruct (empty existing) eqn:Hex.
  - unfold deduplicate in Hd. rewrite Hex in Hd. injection Hd as <- <- <-.
    exists ∅. rewrite filter_all by (intros r _; apply not_elem_of_empty).
    rewrite filter_none by (intros r _; apply not_elem_of_empty).
    repeat split; auto; try discriminate. now destruct new.
  - destruct (deduplicate_Ok_inv _ _ _ Hex Hd) as [Hn He].
    rewrite (deduplicate_filter _ _ Hex Hn He) in Hd.
    injection Hd as <- <- <-. exists (historical_keys existing).
    repeat split; auto; discriminate.
Qed.

(** X14.  Whenever [deduplicate] returns, the returned table has the
    columns of the new batch and its rows are a subsequence of the rows of
    the new batch: nothing is added, changed or reordered; the new-count is
    the number of returned rows, and new-count and duplicate count add up to
    the size of the new batch. *)
Theorem deduplicate_sublist new existing out n d :
  deduplicate new existing = Ok (out, n, d) ->
  columns out = columns new
  /\ rows out `sublist_of` rows new
  /\ n = length (rows out)
  /\ (n + d = length (rows new))%nat.
Proof.
  intros Hd.
  apply deduplicate_Ok_rows in Hd as (keys & -> & -> & -> & _).
  cbn [columns rows]. split; [reflexivity|].
  split; [apply sublist_filter|]. split; [reflexivity|].
  apply filter_absent_present.
Qed.

(** X15.  The historical batch matters through its set of keys only: two
    non-empty historical batches that have the name and address columns as
    columns of text, and the same keys -- such as one batch and a
    reordering of it, or one with repeated rows -- give the same outcome on
    every new batch, the exception raised for the new batch included. *)
Theorem deduplicate_history_as_set new e1 e2 :
  empty e1 = false -> empty e2 = false ->
  text_key_columns e1 -> text_key_columns e2 ->
  historical_keys e1 = historical_keys e2 ->
  deduplicate new e1 = deduplicate new e2.
Proof.
  intros H1 H2 Hk1 Hk2 Hkeys. unfold deduplicate. rewrite H1, H2.
  rewrite (make_key_Ok _ Hk1), (make_key_Ok _ Hk2). cbn [bind].
  fold (historical_keys e1). fold (historical_keys e2). now rewrite Hkeys.
Qed.

(** X16.  A larger history removes more: for a new batch and two
    non-empty histories that have the name and address columns as columns
    of text, when every key of [e1] is a key of [e2], what [deduplicate]
    returns against [e2] is a subsequence of what it returns against
    [e1]. *)
Theorem deduplicate_antitone new e1 e2 :
  empty e1 = false -> empty e2 = false ->
  text_key_columns new -> text_key_columns e1 -> text_key_columns e2 ->
  historical_keys e1 ⊆ historical_keys e2 ->
  exists out1 n1 d1 out2 n2 d2,
    deduplicate new e1 = Ok (out1, n1, d1)
    /\ deduplicate new e2 = Ok (out2, n2, d2)
    /\ rows out2 `sublist_of` rows out1
    /\ (d1 <= d2)%nat.
Proof.
  intros H1 H2 Hn Hk1 Hk2 Hsub.
  rewrite (deduplicate_filter _ _ H1 Hn Hk1).
  rewrite (deduplicate_filter _ _ H2 Hn Hk2).
  eexists _, _, _, _, _, _. split; [reflexivity|]. split; [reflexivity|].
  cbn [rows].
  assert (Hff : filter (fun r => identity_key r ∉ historical_keys e2)
                       (rows new)
                = filter (fun r => identity_key r ∉ historical_keys e2)
                    (filter (fun r => identity_key r ∉ historical_keys e1)
                            (rows new))).
  { rewrite list_filter_filter. apply list_filter_iff. intros r.
    split; [|tauto]. intros Hr. split; [exact Hr|]. intros Hin.
    apply Hr. now apply Hsub. }
  split.
  - rewrite Hff. apply sublist_filter.
  - pose proof (filter_absent_present (historical_keys e1) (rows new)).
    pose proof (filter_absent_present (historical_keys e2) (rows new)).
    assert (length (filter (fun r => identity_key r ∉ historical_keys e2)
                           (rows new))
            <= length (filter (fun r => identity_key r ∉ historical_keys e1)
                              (rows new)))%nat
      by (rewrite Hff; apply length_filter).
    lia.
Qed.

(** X17.  Deduplicating in two steps is deduplicating once against the
    merged history: for a new batch whose rows all have a text as name and
    as address, and non-empty [h1] and [h2] that have the two columns as
    columns of text, the result against [h1], deduplicated against [h2], is
    the result against the concatenation of [h1] and [h2], and the
    duplicate counts add up. *)
Theorem deduplicate_incremental new h1 h2 :
  empty h1 = false -> empty h2 = false ->
  all_text new -> text_key_columns h1 -> text_key_columns h2 ->
  exists g1 n1 d1 g n d,
    deduplicate new h1 = Ok (g1, n1, d1)
    /\ deduplicate g1 h2 = Ok (g, n, d)
    /\ deduplicate new (concat h1 h2) = Ok (g, n, (d1 + d)%nat).
Proof.
  intros H1 H2 Hall Hk1 Hk2.
  pose proof (all_text_text_key_columns _ Hall) as Hn.
  destruct (text_key_columns_concat h1 h2 H1 Hk1) as [Hc Hkc].
  rewrite (deduplicate_filter _ _ H1 Hn Hk1).
  rewrite (deduplicate_filter _ _ Hc Hn Hkc).
  eexists _, _, _, _, _, _. split; [reflexivity|].
  rewrite (deduplicate_filter _ _ H2)
    by auto using all_text_text_key_columns, all_text_filter.
  cbn [columns rows].
  split; [reflexivity|].
  set (K1 := historical_keys h1). set (K2 := historical_keys h2).
  rewrite historical_keys_concat. fold K1 K2.
  assert (Hff : filter (fun r => identity_key r ∉ K1 ∪ K2) (rows new)
                = filter (fun r => identity_key r ∉ K2)
                         (filter (fun r => identity_key r ∉ K1) (rows new))).
  { rewrite list_filter_filter. apply list_filter_iff. intros r.
    rewrite not_elem_of_union. tauto. }
  rewrite Hff. do 2 f_equal.
  pose proof (filter_absent_present K1 (rows new)).
  pose proof (filter_absent_present (K1 ∪ K2) (rows new)) as H3.
  pose proof (filter_absent_present K2
                (filter (fun r => identity_key r ∉ K1) (rows new))).
  rewrite Hff in H3. lia.
Qed.


(** X19.  Merging keeps a duplicate-free master duplicate-free as long as
    the new batch has no two records with the same key: when the keys of the
    historical rows are pairwise distinct and so are those of the new batch,
    the keys of the rows of the merged table are pairwise distinct. *)
Theorem combined_df_keys_NoDup new existing g n d :
  NoDup (identity_key <$> rows existing) ->
  NoDup (identity_key <$> rows new) ->
  deduplicate new existing = Ok (g, n, d) ->
  NoDup (identity_key <$> rows (combined_df existing g)).
Proof.
  intros Hex Hnew Hd.
  assert (Hsub : forall keys : gset (option string),
             NoDup (identity_key <$>
                      filter (fun r => identity_key r ∉ keys) (rows new))).
  { intros keys. apply (sublist_NoDup _ _ Hnew).
    apply fmap_sublist, sublist_filter. }
  destruct (empty existing) eqn:He.
  - unfold deduplicate in Hd. rewrite He in Hd. injection Hd as <- <- <-.
    unfold combined_df. rewrite He. exact Hnew.
  - destruct (deduplicate_Ok_inv _ _ _ He Hd) as [Hkn Hke].
    rewrite (deduplicate_filter _ _ He Hkn Hke) in Hd.
    injection Hd as <- <- <-.
    unfold combined_df. rewrite He. cbn [negb andb].
    match goal with |- context [negb (empty ?t)] => destruct (empty t) end;
      cbn [negb]; [exact Hex|].
    cbn [concat rows]. rewrite fmap_app. apply NoDup_app.
    split; [exact Hex|]. split; [|apply Hsub].
    intros k Hk Hk'. apply list_elem_of_fmap in Hk' as (r & -> & Hr).
    apply list_elem_of_filter in Hr as [Habs _]. apply Habs.
    unfold historical_keys. now apply elem_of_list_to_set.
Qed.

End DedupMore.

Lemma deduplicate_sublist_witness :
  columns (table [vendor "Z" "W"]) = columns new_table
  /\ rows (table [vendor "Z" "W"]) `sublist_of` rows new_table
  /\ 1%nat = length (rows (table [vendor "Z" "W"]))
  /\ (1 + 1 = length (rows new_table))%nat.
Proof.
  apply (deduplicate_sublist new_table hist_table (table [vendor "Z" "W"])
           1%nat 1%nat).
  vm_compute. reflexivity.
Defined.

(** A history with a repeated row. *)
Lemma deduplicate_history_as_set_witness :
  deduplicate new_table hist_table
  = deduplicate new_table (table [vendor "X" "Y"; vendor "X" "Y"]).
Proof.
  apply (deduplicate_history_as_set new_table hist_table
           (table [vendor "X" "Y"; vendor "X" "Y"])).
  - reflexivity.
  - reflexivity.
  - apply table_text_key_columns, vendor_is_vendor.
  - apply table_text_key_columns, vendor_is_vendor.
  - vm_compute. reflexivity.
Defined.

Lemma deduplicate_antitone_witness :
  exists out1 n1 d1 out2 n2 d2,
    deduplicate new_table hist_table = Ok (out1, n1, d1)
    /\ deduplicate new_table new_table = Ok (out2, n2, d2)
    /\ rows out2 `sublist_of` rows out1
    /\ (d1 <= d2)%nat.
Proof.
  apply (deduplicate_antitone new_table hist_table new_table).
  - reflexivity.
  - reflexivity.
  - apply table_text_key_columns, vendor_is_vendor.
  - apply table_text_key_columns, vendor_is_vendor.
  - apply table_text_key_columns, vendor_is_vendor.
  - intros k Hk. apply elem_of_historical_keys in Hk as (r & Hr & <-).
    apply elem_of_historical_keys. exists r. split; [|reflexivity].
    apply elem_of_cons in Hr as [->|Hr]; [in_list|].
    now apply elem_of_nil in Hr.
Defined.

Lemma deduplicate_incremental_witness :
  exists g1 n1 d1 g n d,
    deduplicate new_table hist_table = Ok (g1, n1, d1)
    /\ deduplicate g1 (table [vendor "Z" "W"]) = Ok (g, n, d)
    /\ deduplicate new_table (concat hist_table (table [vendor "Z" "W"]))
       = Ok (g, n, (d1 + d)%nat).
Proof.
  apply (deduplicate_incremental new_table hist_table
           (table [vendor "Z" "W"])).
  - reflexivity.
  - reflexivity.
  - apply table_all_text. intros r Hr.
    apply elem_of_cons in Hr as [->|Hr]; [apply vendor_is_vendor|].
    apply elem_of_cons in Hr as [->|Hr]; [apply vendor_is_vendor|].
    now apply elem_of_nil in Hr.
  - apply table_text_key_columns, vendor_is_vendor.
  - apply table_text_key_columns, vendor_is_vendor.
Defined.


Example missing_name_column :
  deduplicate new_table bad_master = Raise (KeyError "Business Name").
Proof. vm_compute. reflexivity. Qed.

Lemma combined_df_keys_NoDup_witness :
  NoDup (identity_key <$>
           rows (combined_df hist_table (table [vendor "Z" "W"]))).
Proof.
  apply (combined_df_keys_NoDup new_table hist_table
           (table [vendor "Z" "W"]) 1%nat 1%nat).
  - apply NoDup_singleton.
  - apply NoDup_cons. split; [|apply NoDup_singleton].
    intros Hin. apply elem_of_cons in Hin as [Hin|Hin];
      [vm_compute in Hin; discriminate|now apply elem_of_nil in Hin].
  - vm_compute. reflexivity.
Defined.

(** Duplicates inside one batch are both kept, and reach the master. *)
Example duplicates_within_a_batch :
  deduplicate (table [vendor "Z" "W"; vendor "z" " w "]) hist_table
  = Ok (table [vendor "Z" "W"; vendor "z" " w "], 2%nat, O).
Proof. vm_compute. reflexivity. Qed.

(** ** Normalisation of names and addresses *)

Section NormFacts.

Lemma string_app_assoc (a b c : string) : (a +:+ b) +:+ c = a +:+ (b +:+ c).
Proof.
  induction a as [|x a IH]; [reflexivity|]. now rewrite !app_cons, IH.
Qed.

Lemma string_app_length (a b : string) :
  String.length (a +:+ b) = (String.length a + String.length b)%nat.
Proof.
  induction a as [|x a IH]; [reflexivity|]. rewrite app_cons. cbn.
  now rewrite IH.
Qed.

Lemma lower_app (a b : string) :
  PyStr.lower (a +:+ b) = PyStr.lower a +:+ PyStr.lower b.
Proof.
  induction a as [|x a IH]; [reflexivity|].
  rewrite app_cons. cbn [PyStr.lower]. now rewrite app_cons, IH.
Qed.

Lemma lower_char_idempotent c :
  PyStr.lower_char (PyStr.lower_char c) = PyStr.lower_char c.
Proof. destruct c as [[] [] [] [] [] [] [] []]; reflexivity. Qed.

Lemma isspace_lower_char c :
  PyStr.isspace (PyStr.lower_char c) = PyStr.isspace c.
Proof. destruct c as [[] [] [] [] [] [] [] []]; reflexivity. Qed.

Lemma lower_idempotent s : PyStr.lower (PyStr.lower s) = PyStr.lower s.
Proof.
  induction s as [|c s IH]; [reflexivity|]. cbn.
  now rewrite lower_char_idempotent, IH.
Qed.

Lemma lower_lstrip s :
  PyStr.lower (PyStr.lstrip s) = PyStr.lstrip (PyStr.lower s).
Proof.
  induction s as [|c s IH]; [reflexivity|]. cbn [PyStr.lstrip PyStr.lower].
  rewrite isspace_lower_char. now destruct (PyStr.isspace c).
Qed.

Lemma rstrip_cons c s :
  PyStr.rstrip (String c s)
  = match PyStr.rstrip s with
    | EmptyString =>
        if PyStr.isspace c then EmptyString else String c EmptyString
    | r => String c r
    end.
Proof. reflexivity. Qed.

Lemma lower_rstrip s :
  PyStr.lower (PyStr.rstrip s) = PyStr.rstrip (PyStr.lower s).
Proof.
  induction s as [|c s IH]; [reflexivity|].
  cbn [PyStr.lower]. rewrite !rstrip_cons, <- IH, isspace_lower_char.
  destruct (PyStr.rstrip s); [now destruct (PyStr.isspace c)|reflexivity].
Qed.

Lemma lower_strip s : PyStr.lower (PyStr.strip s) = PyStr.strip (PyStr.lower s).
Proof. unfold PyStr.strip. now rewrite lower_rstrip, lower_lstrip. Qed.

Lemma rstrip_idempotent s : PyStr.rstrip (PyStr.rstrip s) = PyStr.rstrip s.
Proof.
  induction s as [|c s IH]; [reflexivity|]. rewrite rstrip_cons.
  destruct (PyStr.rstrip s) as [|d t] eqn:Hr.
  - destruct (PyStr.isspace c) eqn:Hc; [reflexivity|].
    rewrite rstrip_cons. cbn [PyStr.rstrip]. now rewrite Hc.
  - rewrite rstrip_cons, IH. reflexivity.
Qed.

(** A text that does not start with white space keeps its first character
    under [rstrip]. *)
Lemma lstrip_rstrip_lstrip s :
  PyStr.lstrip (PyStr.rstrip (PyStr.lstrip s)) = PyStr.rstrip (PyStr.lstrip s).
Proof.
  induction s as [|c s IH]; [reflexivity|]. cbn [PyStr.lstrip].
  destruct (PyStr.isspace c) eqn:Hc; [exact IH|].
  rewrite rstrip_cons. destruct (PyStr.rstrip s).
  - rewrite Hc. cbn [PyStr.lstrip]. now rewrite Hc.
  - cbn [PyStr.lstrip]. now rewrite Hc.
Qed.

Lemma strip_idempotent s : PyStr.strip (PyStr.strip s) = PyStr.strip s.
Proof.
  unfold PyStr.strip. now rewrite lstrip_rstrip_lstrip, rstrip_idempotent.
Qed.

Lemma identity_key_vendor name addr :
  identity_key (vendor name addr)
  = Some ((PyStr.strip (PyStr.lower name) +:+ "||")
          +:+ PyStr.strip (PyStr.lower addr)).
Proof. reflexivity. Qed.

Lemma contains_bar_cons c s :
  PyStr.contains "|" (String c s)
  = Ascii.eqb "|" c || PyStr.contains "|" s.
Proof. cbn [PyStr.contains PyStr.startswith]. now rewrite andb_true_r. Qed.

(** Cutting at the first bar is unambiguous. *)
Lemma app_bar_inj (m1 m2 t1 t2 : string) :
  PyStr.contains "|" m1 = false -> PyStr.contains "|" m2 = false ->
  m1 +:+ String "|" t1 = m2 +:+ String "|" t2 -> m1 = m2 /\ t1 = t2.
Proof.
  revert m2. induction m1 as [|c m1 IH]; intros [|c2 m2] H1 H2 Heq.
  - now injection Heq as ->.
  - rewrite app_cons in Heq. injection Heq as <- _.
    rewrite contains_bar_cons, Ascii.eqb_refl in H2. discriminate.
  - rewrite app_cons in Heq. injection Heq as -> _.
    rewrite contains_bar_cons, Ascii.eqb_refl in H1. discriminate.
  - rewrite !app_cons in Heq. injection Heq as -> Heq.
    rewrite contains_bar_cons in H1, H2.
    apply orb_false_iff in H1 as [_ H1]. apply orb_false_iff in H2 as [_ H2].
    destruct (IH m2 H1 H2 Heq) as [-> ->]. auto.
Qed.

End NormFacts.

Section NormProperties.

(** X20.  Normalising is idempotent: lower-casing and trimming an already
    lower-cased and trimmed text changes nothing, so a vendor stored with
    its normalised name and address has the Identity Key of the original. *)
Theorem identity_key_normalisation_idempotent (name addr : string) :
  PyStr.strip (PyStr.lower (PyStr.strip (PyStr.lower name)))
  = PyStr.strip (PyStr.lower name)
  /\ identity_key (vendor (PyStr.strip (PyStr.lower name))
                          (PyStr.strip (PyStr.lower addr)))
     = identity_key (vendor name addr).
Proof.
  assert (Hn : forall s, PyStr.strip (PyStr.lower (PyStr.strip (PyStr.lower s)))
                         = PyStr.strip (PyStr.lower s)).
  { intros s. now rewrite lower_strip, lower_idempotent, strip_idempotent. }
  split; [apply Hn|]. now rewrite !identity_key_vendor, !Hn.
Qed.

(** X21.  The separator can occur inside a field: for normalised texts
    [x], [y], [z], the vendor named "x||y" at [z] and the vendor named [x]
    at "y||z" have different names and the same Identity Key, and
    [deduplicate] removes the one as a duplicate of the other. *)
Theorem identity_key_separator_collision (x y z : string) :
  PyStr.strip (PyStr.lower x) = x ->
  PyStr.strip (PyStr.lower z) = z ->
  PyStr.strip (PyStr.lower (x +:+ "||" +:+ y)) = x +:+ "||" +:+ y ->
  PyStr.strip (PyStr.lower (y +:+ "||" +:+ z)) = y +:+ "||" +:+ z ->
  x +:+ "||" +:+ y <> x
  /\ identity_key (vendor (x +:+ "||" +:+ y) z)
     = identity_key (vendor x (y +:+ "||" +:+ z))
  /\ deduplicate (table [vendor x (y +:+ "||" +:+ z)])
                 (table [vendor (x +:+ "||" +:+ y) z])
     = Ok (table [], O, 1%nat).
Proof.
  intros Hx Hz Hxy Hyz.
  assert (Hkey : identity_key (vendor (x +:+ "||" +:+ y) z)
                 = identity_key (vendor x (y +:+ "||" +:+ z))).
  { rewrite !identity_key_vendor, Hx, Hz, Hxy, Hyz.
    now rewrite !string_app_assoc. }
  split; [|split; [exact Hkey|]].
  - intros Heq. apply (f_equal String.length) in Heq.
    rewrite !string_app_length in Heq. cbn in Heq. lia.
  - rewrite deduplicate_filter;
      [|reflexivity|apply table_text_key_columns, vendor_is_vendor..].
    cbn [table rows columns].
    assert (Hin : identity_key (vendor x (y +:+ "||" +:+ z))
                  ∈ historical_keys (table [vendor (x +:+ "||" +:+ y) z])).
    { apply elem_of_historical_keys. eexists. split; [in_list|exact Hkey]. }
    rewrite filter_cons_False by (intros Hn; now apply Hn).
    rewrite (filter_cons_True
               (fun r => identity_key r ∈ historical_keys _)) by exact Hin.
    reflexivity.
Qed.

(** X22.  When the normalised names hold no bar character, equal Identity
    Keys mean equal normalised names and equal normalised addresses. *)
Theorem identity_key_injective (r1 r2 : gmap string pyval)
    (m1 b1 m2 b2 : string) :
  normalized (cell r1 "Business Name") = Some m1 ->
  normalized (cell r1 "Address") = Some b1 ->
  normalized (cell r2 "Business Name") = Some m2 ->
  normalized (cell r2 "Address") = Some b2 ->
  PyStr.contains "|" m1 = false -> PyStr.contains "|" m2 = false ->
  identity_key r1 = identity_key r2 ->
  m1 = m2 /\ b1 = b2.
Proof.
  intros Hm1 Hb1 Hm2 Hb2 H1 H2. unfold identity_key.
  rewrite Hm1, Hb1, Hm2, Hb2. intros [= Heq].
  rewrite !string_app_assoc in Heq.
  change ("||" +:+ b1) with (String "|" (String "|" b1)) in Heq.
  change ("||" +:+ b2) with (String "|" (String "|" b2)) in Heq.
  apply app_bar_inj in Heq as [-> Heq]; auto. now injection Heq as ->.
Qed.

End NormProperties.

Lemma identity_key_separator_collision_witness :
  "a" +:+ "||" +:+ "b" <> "a"
  /\ identity_key (vendor ("a" +:+ "||" +:+ "b") "c")
     = identity_key (vendor "a" ("b" +:+ "||" +:+ "c"))
  /\ deduplicate (table [vendor "a" ("b" +:+ "||" +:+ "c")])
                 (table [vendor ("a" +:+ "||" +:+ "b") "c"])
     = Ok (table [], O, 1%nat).
Proof.
  apply (identity_key_separator_collision "a" "b" "c"); reflexivity.
Defined.

Lemma identity_key_injective_witness :
  "acme tents" = "acme tents" /\ "mg road" = "mg road".
Proof.
  apply (identity_key_injective (vendor "Acme Tents " "MG Road")
           (vendor "acme tents" "mg road")
           "acme tents" "mg road" "acme tents" "mg road");
    reflexivity.
Defined.

(** ** More on the normaliser and the extractor *)

Section ContainsFacts.

Lemma contains_unfold sub s :
  PyStr.contains sub s
  = PyStr.startswith sub s
    || match s with
       | EmptyString => false
       | String _ s' => PyStr.contains sub s'
       end.
Proof. destruct s; reflexivity. Qed.

Lemma contains_app sub a b : PyStr.contains sub (a +:+ sub +:+ b) = true.
Proof.
  induction a as [|c a IH].
  - change (EmptyString +:+ sub +:+ b) with (sub +:+ b).
    rewrite contains_unfold, startswith_app. reflexivity.
  - rewrite app_cons, contains_unfold, IH. apply orb_true_r.
Qed.

Lemma contains_inv sub s :
  PyStr.contains sub s = true -> exists a b, s = a +:+ sub +:+ b.
Proof.
  induction s as [|c s IH]; rewrite contains_unfold; intros Hc.
  - rewrite orb_false_r in Hc. apply startswith_inv in Hc as [b Hb].
    now exists EmptyString, b.
  - apply orb_true_iff in Hc as [Hc|Hc].
    + apply startswith_inv in Hc as [b Hb]. now exists EmptyString, b.
    + destruct (IH Hc) as (a & b & ->). now exists (String c a), b.
Qed.

End ContainsFacts.

Section NormaliserMore.
Context `{PhoneNumbers}.

Lemma cleaned_junk junk :
  Forall (fun c => not_digit_or_plus c = true)
         (String.list_ascii_of_string junk) ->
  cleaned junk = EmptyString.
Proof.
  unfold cleaned. induction junk as [|c junk IH]; [reflexivity|].
  cbn. intros Hall. inversion Hall as [|? ? Hc Hj]; subst.
  rewrite Hc. auto.
Qed.

(** X23.  Characters that are neither digits nor plus signs do not matter:
    inserting any run of them into a raw text that is not empty leaves the
    result of the normaliser, and the calls it makes to the parser,
    unchanged. *)
Theorem validate_phone_ignores_punctuation (a junk b : string) :
  Forall (fun c => not_digit_or_plus c = true)
         (String.list_ascii_of_string junk) ->
  a +:+ b <> EmptyString ->
  validate_phone_calls (Some (a +:+ junk +:+ b))
  = validate_phone_calls (Some (a +:+ b)).
Proof.
  intros Hjunk Hne.
  assert (Hne' : a +:+ junk +:+ b <> EmptyString).
  { intros Heq. apply Hne. destruct a; [|discriminate].
    destruct junk; [exact Heq|discriminate]. }
  rewrite !validate_phone_calls_nonempty by assumption.
  rewrite !cleaned_app, (cleaned_junk junk Hjunk). reflexivity.
Qed.

End NormaliserMore.

Section ExtractorMore.
Context `{PhoneNumbers}.
Variable TODAY : string.

(** X24.  A listing is dropped exactly when its closed flag is set or its
    status, lower-cased, contains "permanently closed"; in particular the
    phrase is recognised inside a longer status and in any letter case. *)
Theorem extract_record_closed_filter (place : Place) (category : string) :
  (extract_record TODAY place category = None <->
   permanently_closed place = Some true
   \/ exists a b,
        PyStr.lower (default EmptyString (status place))
        = a +:+ "permanently closed" +:+ b)
  /\ (forall a w b,
         status place = Some (a +:+ w +:+ b) ->
         PyStr.lower w = "permanently closed" ->
         extract_record TODAY place category = None).
Proof.
  assert (Hiff : extract_record TODAY place category = None <->
                 is_closed place = true).
  { unfold extract_record. destruct (is_closed place); split;
      congruence. }
  split.
  - rewrite Hiff. unfold is_closed. rewrite orb_true_iff. split.
    + intros [Hflag|Hst].
      * left. destruct (permanently_closed place) as [[]|];
          try discriminate; reflexivity.
      * right. now apply contains_inv.
    + intros [->|(a & b & ->)]; [now left|right]. apply contains_app.
  - intros a w b Hst Hw. apply Hiff. unfold is_closed. rewrite Hst.
    cbn [from_option id]. rewrite !lower_app, Hw, contains_app.
    apply orb_true_r.
Qed.

(** X25.  The website of a record is never empty: it is the website of the
    listing when that is present and not empty, else the website under
    [links] when that is present and not empty, else "N/A". *)
Theorem extract_record_website (place : Place) (category : string)
    (r : VendorRecord) :
  extract_record TODAY place category = Some r ->
  Website r <> EmptyString
  /\ (forall w, website place = Some w -> w <> EmptyString -> Website r = w)
  /\ (truthy (website place) = false ->
      forall l w, links place = Some l -> links_website l = Some w ->
                  w <> EmptyString -> Website r = w)
  /\ (truthy (website place) = false ->
      (links place = None
       \/ exists l, links place = Some l
                    /\ truthy (links_website l) = false) ->
      Website r = "N/A").
Proof.
  unfold extract_record. destruct (is_closed place); [discriminate|].
  intros [= <-]. cbn [Website].
  destruct (website place) as [[|c w]|]; cbn [py_or truthy].
  - split; [|split; [|split]].
    + destruct (links place) as [[[[|c w]|]]|]; cbn; discriminate.
    + intros w [= <-] Hw. now destruct Hw.
    + intros _ l w -> -> Hw. cbn. destruct w; [now destruct Hw|reflexivity].
    + intros _ [->|(l & -> & Hl)]; [reflexivity|].
      destruct (links_website l) as [[|c w]|]; cbn in *;
        [reflexivity|discriminate|reflexivity].
  - split; [discriminate|]. split; [|split]; try discriminate.
    intros w' [= <-] _. reflexivity.
  - split; [|split; [|split]].
    + destruct (links place) as [[[[|c w]|]]|]; cbn; discriminate.
    + discriminate.
    + intros _ l w -> -> Hw. cbn. destruct w; [now destruct Hw|reflexivity].
    + intros _ [->|(l & -> & Hl)]; [reflexivity|].
      destruct (links_website l) as [[|c w]|]; cbn in *;
        [reflexivity|discriminate|reflexivity].
Qed.

End ExtractorMore.

Lemma validate_phone_ignores_punctuation_witness :
  @validate_phone_calls Fixture.lib (Some ("098765" +:+ " - " +:+ "43210"))
  = @validate_phone_calls Fixture.lib (Some ("098765" +:+ "43210")).
Proof.
  apply (@validate_phone_ignores_punctuation Fixture.lib
           "098765" " - " "43210").
  - repeat constructor.
  - discriminate.
Defined.

Lemma extract_record_website_witness :
  Website open_record <> EmptyString.
Proof.
  apply (@extract_record_website Fixture.lib run_date open_listing
           "Tent House Bangalore" open_record).
  vm_compute. reflexivity.
Defined.

Lemma extract_record_closed_filter_witness :
  @extract_record Fixture.lib run_date SourceFixture.shut_listing
    "Florists Bangalore"
  = None.
Proof.
  apply (proj2 (@extract_record_closed_filter Fixture.lib run_date
                  SourceFixture.shut_listing "Florists Bangalore")
           EmptyString "Permanently Closed" EmptyString);
    reflexivity.
Defined.
